(** * Review summarisation pipeline: [utils.py] and [main.py]

    A shallow embedding of the pipeline's functions and the properties the
    specification states about them.

    Python values are embedded as follows.
    - [str] is [string]: a sequence of characters, each an [ascii].
    - [int] is [Z] (unbounded).
    - [None] and the values a MariaDB cursor hands back are [pyval].
    - [set] is stdpp's [gset]; [list(set(l))] is [elements (list_to_set l)],
      an enumeration whose order is not specified, as in Python.
    - an exception is a value of [exn]; a computation returns an [outcome]. *)

From Stdlib Require Import ZArith Ascii String.
From stdpp Require Import base decidable option list strings pretty gmap sets.

Local Open Scope Z_scope.

(** ** Strings *)

Module Str.

(** [str.isspace] for one character: the characters CPython's
    [_PyUnicode_IsWhitespace] accepts below code point 256. *)
Definition isspace (c : ascii) : bool :=
  let n := Ascii.N_of_ascii c in
  ((9 <=? n) && (n <=? 13) || (28 <=? n) && (n <=? 32)
   || (n =? 133) || (n =? 160))%N.

Definition chars (s : string) : list ascii := list_ascii_of_string s.
Definition of_chars (l : list ascii) : string := string_of_list_ascii l.

(** Drop the leading characters that satisfy [p]. *)
Fixpoint drop_leading (p : ascii → bool) (l : list ascii) : list ascii :=
  match l with
  | [] => []
  | c :: l' => if p c then drop_leading p l' else l
  end.

Definition lstrip_chars (l : list ascii) : list ascii :=
  drop_leading isspace l.
Definition rstrip_chars (l : list ascii) : list ascii :=
  reverse (drop_leading isspace (reverse l)).

(** [s.strip()]: the slice between the first and the last character that
    is not whitespace. *)
Definition strip (s : string) : string :=
  of_chars (rstrip_chars (lstrip_chars (chars s))).

(** [s] has no whitespace at either end. *)
Definition trimmed (s : string) : Prop :=
  (∀ c l, chars s = c :: l → isspace c = false) ∧
  (∀ c l, chars s = l ++ [c] → isspace c = false).

(** [bool(s)] for a string. *)
Definition nonempty (s : string) : bool :=
  match s with EmptyString => false | String _ _ => true end.

End Str.

(** ** Python values, exceptions, outcomes *)

(** The values that flow through the pipeline: what a MariaDB cursor
    returns for a column (NULL, integers, decimals, text) and what the
    driver passes on. [PyDec m e] is the decimal [m * 10^-e]. *)
Inductive pyval :=
  | PyNone
  | PyInt (n : Z)
  | PyDec (unscaled : Z) (scale : nat)
  | PyStr (s : string).

Global Instance pyval_eq_dec : EqDecision pyval.
Proof. solve_decision. Defined.

(** [bool(v)]. *)
Definition truthy (v : pyval) : bool :=
  match v with
  | PyNone => false
  | PyInt n => negb (n =? 0)
  | PyDec m _ => negb (m =? 0)
  | PyStr s => Str.nonempty s
  end.

(** Exceptions the pipeline's operations raise. All of them are subclasses
    of [Exception]. *)
Inductive exn :=
  | MariadbError (msg : string)          (* mariadb.Error *)
  | UnboundLocalError (var : string)
  | TypeError (msg : string)
  | AttributeError (msg : string)
  | OpenAIError (msg : string).          (* openai.OpenAIError *)

Global Instance exn_eq_dec : EqDecision exn.
Proof. solve_decision. Defined.

Definition is_mariadb_error (e : exn) : bool :=
  match e with MariadbError _ => true | _ => false end.

Inductive outcome (A : Type) :=
  | Ok (a : A)
  | Raise (e : exn).
Global Arguments Ok {A} a.
Global Arguments Raise {A} e.

Definition raises {A} (o : outcome A) : bool :=
  match o with Ok _ => false | Raise _ => true end.

(** ** [preprocess_reviews] *)

(** [review.strip()] on a value: an attribute error on anything that is not
    a string. *)
Definition strip_value (v : pyval) : outcome string :=
  match v with
  | PyStr s => Ok (Str.strip s)
  | PyNone => Raise (AttributeError "'NoneType' object has no attribute 'strip'")
  | PyInt _ => Raise (AttributeError "'int' object has no attribute 'strip'")
  | PyDec _ _ =>
      Raise (AttributeError "'decimal.Decimal' object has no attribute 'strip'")
  end.

(** [[f(x) for x in l]] for an [f] that may raise: stops at the first
    exception. *)
Fixpoint comprehension {A B} (f : A → outcome B) (l : list A)
  : outcome (list B) :=
  match l with
  | [] => Ok []
  | x :: l' =>
      match f x with
      | Raise e => Raise e
      | Ok y =>
          match comprehension f l' with
          | Raise e => Raise e
          | Ok ys => Ok (y :: ys)
          end
      end
  end.

(** [list(set(l))]. *)
Definition list_of_set (l : list string) : list string :=
  elements (list_to_set l : gset string).

Definition preprocess_reviews (all_reviews : list pyval)
  : outcome (list string) :=
  (* Remove None *)
  let all_reviews := filter (λ v, truthy v = true) all_reviews in
  (* remove empty text *)
  let all_reviews := filter (λ review, truthy review = true) all_reviews in
  (* Strip extra spaces *)
  match comprehension strip_value all_reviews with
  | Raise e => Raise e
  | Ok all_reviews =>
      (* Remove duplicates *)
      Ok (list_of_set all_reviews)
  end.

(** A sequence of optional strings as Python values. *)
Definition of_optional (o : option string) : pyval :=
  match o with None => PyNone | Some s => PyStr s end.

(** ** [num_tokens_from_string] and the context of [generate_summary_openai] *)

Definition newline : string := String "010"%char EmptyString.

(** Each review followed by a newline, concatenated in order. *)
Fixpoint lines (l : list string) : string :=
  match l with
  | [] => ""
  | r :: l' => r +:+ newline +:+ lines l'
  end.

Definition system_prompt : string :=
  "Generate a detailed long summary of the Google reviews for a sports academy, ensuring the summary contains at least 350 words and does not exceed 500 words. Do not generate short summaries. Format the summary with bullet points. Start immediately with the summary, maintaining a professional tone and focusing on factual content from the reviews. This is for marketing purposes,so write summary as if you are promoting the sports academy. Include SEO-optimized keywords relevant to sports academies to boost search rankings. Make sure to include proper punctuation, especially full stops at the end of each sentence. Never generate less than 350 words.".

Definition max_tokens : Z := 1200.

Section Context_accumulation.

(** The tokenizer [tiktoken.encoding_for_model("gpt-3.5-turbo")] is a
    library object; the model takes its [encode] as a parameter. *)
Context {token : Type}.
Variable encode : string → list token.

Definition num_tokens_from_string (s : string) : Z :=
  Z.of_nat (length (encode s)).

Definition max_token_count_for_context : Z :=
  16000 - max_tokens - num_tokens_from_string system_prompt.

(** The [for _review in all_reviews] loop, started with the context
    accumulated so far. *)
Fixpoint accumulate (context : string) (all_reviews : list string) : string :=
  match all_reviews with
  | [] => context
  | _review :: rest =>
      if num_tokens_from_string _review >? max_token_count_for_context
      then context                                   (* break *)
      else accumulate (context +:+ _review +:+ newline) rest
  end.

Definition build_context (all_reviews : list string) : string :=
  accumulate "" all_reviews.

(** The test the loop makes on one review. *)
Definition fits (r : string) : Prop :=
  num_tokens_from_string r ≤ max_token_count_for_context.

Global Instance fits_dec (r : string) : Decision (fits r).
Proof. unfold fits. apply _. Defined.

End Context_accumulation.

(** ** The remote completion request *)

Record request := {
  model : string;
  system_content : string;          (* {"role": "system", ...} *)
  user_content : string;            (* {"role": "user", ...} *)
  temperature : Z;
  request_max_tokens : Z;
  top_p : Z;
  n_completions : Z;
  presence_penalty : Z;
  frequency_penalty : Z }.

(** ** The MariaDB store *)

Record table := { columns : list string; rows : list (list pyval) }.

(** The three statements the program sends, with the names and the bound
    parameters they are built from. *)
Inductive query :=
  | SelectDistinct (column_name table_name : string)
      (* SELECT DISTINCT {column_name} FROM {table} *)
  | SelectRatingReview (table_name : string) (id : pyval)
      (* SELECT Rating, Review FROM {table} WHERE Id=? *)
  | UpdateReviewSummary (table_name new_review_summary : string)
                        (id_to_update : pyval).
      (* UPDATE <table> SET review_summary = ? WHERE id = ? *)

Definition column_index (t : table) (c : string) : option nat :=
  fst <$> list_find (λ x, x = c) (columns t).

Definition cell (i : nat) (row : list pyval) : pyval :=
  default PyNone (row !! i).

(** SQL [=]: never true on NULL. *)
Definition sql_eq (a b : pyval) : bool :=
  match a, b with
  | PyNone, _ | _, PyNone => false
  | _, _ => bool_decide (a = b)
  end.

Definition no_such_table (t : string) : exn :=
  MariadbError ("Table doesn't exist: " +:+ t).
Definition unknown_column (c : string) : exn :=
  MariadbError ("Unknown column: " +:+ c).

(** The column values of a table, one per row. *)
Definition column_values (t : table) (i : nat) : list pyval :=
  cell i <$> rows t.

(** What the server does with a statement: the rows it answers and the
    tables afterwards, or an error for a table or column it does not know. *)
Definition run_query (d : gmap string table) (q : query)
  : outcome (list (list pyval) * gmap string table) :=
  match q with
  | SelectDistinct c t =>
      match d !! t with
      | None => Raise (no_such_table t)
      | Some tb =>
          match column_index tb c with
          | None => Raise (unknown_column c)
          | Some i => Ok ((λ v, [v]) <$> remove_dups (column_values tb i), d)
          end
      end
  | SelectRatingReview t id =>
      match d !! t with
      | None => Raise (no_such_table t)
      | Some tb =>
          match column_index tb "Rating", column_index tb "Review",
                column_index tb "Id" with
          | Some ra, Some re, Some i =>
              Ok ((λ row, [cell ra row; cell re row])
                    <$> filter (λ row, sql_eq (cell i row) id = true) (rows tb),
                  d)
          | None, _, _ => Raise (unknown_column "Rating")
          | _, None, _ => Raise (unknown_column "Review")
          | _, _, None => Raise (unknown_column "Id")
          end
      end
  | UpdateReviewSummary t s id =>
      match d !! t with
      | None => Raise (no_such_table t)
      | Some tb =>
          match column_index tb "review_summary", column_index tb "id" with
          | Some rs, Some i =>
              let upd row :=
                if sql_eq (cell i row) id then <[rs := PyStr s]> row else row in
              Ok ([], <[t := {| columns := columns tb; rows := upd <$> rows tb |}]> d)
          | None, _ => Raise (unknown_column "review_summary")
          | _, None => Raise (unknown_column "id")
          end
      end
  end.

(** The operations of a connection that can fail, and what goes wrong in one
    connection: nothing, or one operation raising [mariadb.Error]. *)
Inductive store_op := OpConnect | OpCursor | OpExecute | OpFetchall | OpCommit.

Definition op_eqb (a b : store_op) : bool :=
  match a, b with
  | OpConnect, OpConnect | OpCursor, OpCursor | OpExecute, OpExecute
  | OpFetchall, OpFetchall | OpCommit, OpCommit => true
  | _, _ => false
  end.

Inductive fault :=
  | NoFault
  | FailAt (op : store_op) (msg : string).

Definition fails_at (f : fault) (op : store_op) : option exn :=
  match f with
  | NoFault => None
  | FailAt op' msg => if op_eqb op' op then Some (MariadbError msg) else None
  end.

(** ** Effects *)

Inductive message :=
  | MsgError (e : exn)              (* print(f"Error: {e}") *)
  | MsgUniqueIds (ids : list pyval) (* print("unique_ids : ", unique_ids) *)
  | MsgGenerating (id : pyval)      (* print("Generating summary for id : ", _id) *)
  | MsgSummary (summary : string)   (* print("Summary : \n", summary) *)
  | MsgSummaryAdded                 (* print("\n Summary added in DB successfully.") *)
  | MsgFinished (id : pyval)        (* print("\nFinished generating summary for id : ", _id) *)
  | MsgSeparator                    (* print("=" * 80 + "\n") *)
  | MsgDriverError (e : exn).       (* print("Error : ", e) *)

Inductive event :=
  | Printed (m : message)
  | Connected
  | CursorOpened
  | Executed (q : query)
  | Committed
  | CursorClosed
  | ConnectionClosed
  | Requested (r : request).

(** Everything outside the process: the tables, the open connection, what
    will go wrong, what the completion service will answer, and what has
    happened so far. *)
Record world := {
  db : gmap string table;          (* the committed tables *)
  work : gmap string table;        (* the tables as the open connection sees them *)
  result_set : list (list pyval);  (* the rows the open cursor holds *)
  faults : nat → fault;            (* what goes wrong in the n-th connection *)
  sessions : nat;                  (* connections attempted so far *)
  llm : nat → request → outcome string; (* the answer to the n-th request *)
  requests : nat;                  (* completion requests sent so far *)
  trace : list event }.            (* oldest first *)

Definition emit (ev : event) (w : world) : world :=
  {| db := db w; work := work w; result_set := result_set w;
     faults := faults w; sessions := sessions w; llm := llm w;
     requests := requests w; trace := trace w ++ [ev] |}.

Definition set_work (d : gmap string table) (rs : list (list pyval))
    (w : world) : world :=
  {| db := db w; work := d; result_set := rs;
     faults := faults w; sessions := sessions w; llm := llm w;
     requests := requests w; trace := trace w |}.

Definition set_db (d : gmap string table) (w : world) : world :=
  {| db := d; work := work w; result_set := result_set w;
     faults := faults w; sessions := sessions w; llm := llm w;
     requests := requests w; trace := trace w |}.

Definition next_session (w : world) : world :=
  {| db := db w; work := work w; result_set := result_set w;
     faults := faults w; sessions := S (sessions w); llm := llm w;
     requests := requests w; trace := trace w |}.

Definition next_request (w : world) : world :=
  {| db := db w; work := work w; result_set := result_set w;
     faults := faults w; sessions := sessions w; llm := llm w;
     requests := S (requests w); trace := trace w |}.

(** The fault of the connection attempted last. *)
Definition current_fault (w : world) : fault :=
  faults w (Nat.pred (sessions w)).

(** The local variables [conn] and [curr] of the three store functions: not
    yet assigned, [None], or an object. *)
Inductive local := Unbound | BoundNone | BoundObject.
Record frame := { conn : local; curr : local }.

(** A computation: from the world and the locals to a returned value or a
    raised exception, and the world and the locals afterwards. *)
Definition M (A : Type) : Type := world * frame → outcome A * (world * frame).

Definition ret {A} (a : A) : M A := λ s, (Ok a, s).
Definition raise {A} (e : exn) : M A := λ s, (Raise e, s).
Definition bind {A B} (m : M A) (k : A → M B) : M B :=
  λ s, match m s with
       | (Ok a, s') => k a s'
       | (Raise e, s') => (Raise e, s')
       end.
Definition lift {A} (o : outcome A) : M A := λ s, (o, s).

Notation "'let!' x ':=' m 'in' k" := (bind m (λ x, k))
  (at level 10, x name, m at level 100, k at level 200).
Notation "m ;;; k" := (bind m (λ _, k))
  (at level 100, k at level 200, right associativity).

(** [try: body except <catches>: handler]. *)
Definition try_except {A} (body : M A) (catches : exn → bool)
    (handler : exn → M A) : M A :=
  λ s, match body s with
       | (Ok a, s') => (Ok a, s')
       | (Raise e, s') => if catches e then handler e s' else (Raise e, s')
       end.

(** [try: body finally: fin]: [fin] runs on every exit from [body]; an
    exception of [fin] replaces the result of [body]. *)
Definition try_finally {A} (body : M A) (fin : M unit) : M A :=
  λ s, match body s with
       | (r, s') =>
           match fin s' with
           | (Ok _, s'') => (r, s'')
           | (Raise e, s'') => (Raise e, s'')
           end
       end.

(** A function call: the body runs on its own locals. *)
Definition call {A} (locals : frame) (body : M A) : M A :=
  λ '(w, f), match body (w, locals) with (r, (w', _)) => (r, (w', f)) end.

Definition on_world (g : world → world) : M unit :=
  λ '(w, f), (Ok tt, (g w, f)).

Definition print (m : message) : M unit := on_world (emit (Printed m)).

(** Reading a local in a condition: [if conn:]. *)
Definition test_local (name : string) (get : frame → local) : M bool :=
  λ '(w, f), match get f with
             | Unbound => (Raise (UnboundLocalError name), (w, f))
             | BoundNone => (Ok false, (w, f))
             | BoundObject => (Ok true, (w, f))
             end.

Definition assign_conn : M unit :=
  λ '(w, f), (Ok tt, (w, {| conn := BoundObject; curr := curr f |})).
Definition assign_curr : M unit :=
  λ '(w, f), (Ok tt, (w, {| conn := conn f; curr := BoundObject |})).

(** [mariadb.connect(...)]. *)
Definition mariadb_connect : M unit :=
  λ '(w, f),
    let w := next_session w in
    match fails_at (current_fault w) OpConnect with
    | Some e => (Raise e, (w, f))
    | None => (Ok tt, (emit Connected (set_work (db w) [] w), f))
    end.

(** [conn.cursor()]. *)
Definition conn_cursor : M unit :=
  λ '(w, f),
    match fails_at (current_fault w) OpCursor with
    | Some e => (Raise e, (w, f))
    | None => (Ok tt, (emit CursorOpened w, f))
    end.

(** [curr.execute(...)]. *)
Definition curr_execute (q : query) : M unit :=
  λ '(w, f),
    match fails_at (current_fault w) OpExecute with
    | Some e => (Raise e, (w, f))
    | None =>
        match run_query (work w) q with
        | Raise e => (Raise e, (w, f))
        | Ok (rs, d) => (Ok tt, (emit (Executed q) (set_work d rs w), f))
        end
    end.

(** [curr.fetchall()]. *)
Definition curr_fetchall : M (list (list pyval)) :=
  λ '(w, f),
    match fails_at (current_fault w) OpFetchall with
    | Some e => (Raise e, (w, f))
    | None => (Ok (result_set w), (set_work (work w) [] w, f))
    end.

(** [conn.commit()]. *)
Definition conn_commit : M unit :=
  λ '(w, f),
    match fails_at (current_fault w) OpCommit with
    | Some e => (Raise e, (w, f))
    | None => (Ok tt, (emit Committed (set_db (work w) w), f))
    end.

(** [curr.close()]. *)
Definition curr_close : M unit := on_world (emit CursorClosed).

(** [conn.close()]: what was not committed is lost. *)
Definition conn_close : M unit :=
  on_world (λ w, emit ConnectionClosed (set_work (db w) [] w)).

(** [await client.chat.completions.create(...)] and the content of the
    first choice. *)
Definition create_completion (r : request) : M string :=
  λ '(w, f), (llm w (requests w) r, (emit (Requested r) (next_request w), f)).

(** The [finally] block the three store functions share. *)
Definition close_all : M unit :=
  let! c := test_local "curr" curr in
  (if c then curr_close else ret tt);;;
  let! c := test_local "conn" conn in
  if c then conn_close else ret tt.

(** ** The store functions of [utils.py] *)

Definition fetch_unique_values_from_db (table column_name : string)
  : M (list pyval) :=
  call {| conn := BoundNone; curr := BoundNone |}      (* conn = None; curr = None *)
    (try_finally
       (try_except
          (mariadb_connect;;; assign_conn;;;
           conn_cursor;;; assign_curr;;;
           curr_execute (SelectDistinct column_name table);;;
           let! fetched := curr_fetchall in
           let unique_ids := cell 0 <$> fetched in
           ret unique_ids)
          is_mariadb_error
          (λ e, print (MsgError e);;; ret []))
       close_all).

(** A pandas [DataFrame] with the columns [Rating] and [Review]. *)
Definition dataframe : Type := list (pyval * pyval).

Definition to_dataframe (result : list (list pyval)) : dataframe :=
  (λ row, (cell 0 row, cell 1 row)) <$> result.

Definition fetch_rating_and_review (table : string) (id : pyval)
  : M (option dataframe) :=
  call {| conn := Unbound; curr := Unbound |}
    (try_finally
       (try_except
          (mariadb_connect;;; assign_conn;;;
           conn_cursor;;; assign_curr;;;
           curr_execute (SelectRatingReview table id);;;
           let! result := curr_fetchall in
           match result with
           | _ :: _ => ret (Some (to_dataframe result))
           | [] => ret None
           end)
          is_mariadb_error
          (λ e, print (MsgError e);;; ret None))
       close_all).

Definition update_review_summary (summary_table : string)
    (id_to_update : pyval) (new_review_summary : string) : M unit :=
  call {| conn := Unbound; curr := Unbound |}
    (try_finally
       (try_except
          (mariadb_connect;;; assign_conn;;;
           conn_cursor;;; assign_curr;;;
           curr_execute
             (UpdateReviewSummary "bmp_academy_details" new_review_summary
                                  id_to_update);;;
           conn_commit;;;
           print MsgSummaryAdded)
          is_mariadb_error
          (λ e, print (MsgError e)))
       close_all).

(** ** [generate_summary_openai] and [main] *)

Definition and_then {A B} (o : outcome A) (k : A → outcome B) : outcome B :=
  match o with Ok a => k a | Raise e => Raise e end.

(** [df["Rating"]], [df["Review"]]: a type error on [None]. *)
Definition subscript (df : option dataframe) (column : pyval * pyval → pyval)
  : outcome (list pyval) :=
  match df with
  | None => Raise (TypeError "'NoneType' object is not subscriptable")
  | Some d => Ok (column <$> d)
  end.

Section Pipeline.

Context {token : Type}.
Variable encode : string → list token.

(** pandas' [Series.mean], the builtin [round] and the conversion to text
    an f-string applies are library code: parameters of the model. *)
Variable series_mean : list pyval → outcome pyval.
Variable py_round : pyval → Z → outcome pyval.
Variable py_str : pyval → string.

Definition user_prompt (total_rating : Z) (average_rating : pyval)
    (context : string) : string :=
  "Reviews:" +:+ newline +:+
  "Total Rating:" +:+ py_str (PyInt total_rating) +:+ newline +:+
  "Average rating:" +:+ py_str average_rating +:+ newline +:+
  context +:+ newline +:+ newline +:+ "Summary:".

Definition generate_summary_openai (all_reviews : list string)
    (total_rating : Z) (average_rating : pyval) : M string :=
  let context := build_context encode all_reviews in
  create_completion
    {| model := "gpt-3.5-turbo-0125";
       system_content := system_prompt;
       user_content := user_prompt total_rating average_rating context;
       temperature := 0;
       request_max_tokens := max_tokens;
       top_p := 1;
       n_completions := 1;
       presence_penalty := 0;
       frequency_penalty := 0 |}.

(** What one iteration of [main] computes from the fetched frame before it
    calls the generator: the cleaned reviews, [total_rating] and
    [average_rating]. *)
Definition review_batch (rating_review_df : option dataframe)
  : outcome (list string * Z * pyval) :=
  (* Calculate total rating *)
  and_then (subscript rating_review_df fst) (λ ratings,
  let total_rating := Z.of_nat (length ratings) in
  (* Calculate average rating *)
  and_then (subscript rating_review_df fst) (λ ratings,
  and_then (series_mean ratings) (λ mean,
  and_then (py_round mean 2) (λ average_rating,
  (* Get all reviews in a list *)
  and_then (subscript rating_review_df snd) (λ all_reviews,
  (* Prereprocess reviews *)
  and_then (preprocess_reviews all_reviews) (λ all_reviews,
  Ok (all_reviews, total_rating, average_rating))))))).

(** The [try] suite of the [for _id in unique_ids] loop. *)
Definition iteration_body (review_table summary_table : string)
    (_id : pyval) : M unit :=
  print (MsgGenerating _id);;;
  (* Fetch rating and review based on Id *)
  let! rating_review_df := fetch_rating_and_review review_table _id in
  let! batch := lift (review_batch rating_review_df) in
  let '(all_reviews, total_rating, average_rating) := batch in
  (* Generate Summary *)
  let! summary :=
    generate_summary_openai all_reviews total_rating average_rating in
  print (MsgSummary summary);;;
  (* Save summary to summary table *)
  update_review_summary summary_table _id summary;;;
  print (MsgFinished _id);;;
  print MsgSeparator.

(** One iteration of the loop: the suite under [except Exception]. *)
Definition iteration (review_table summary_table : string) (_id : pyval)
  : M unit :=
  try_except
    (iteration_body review_table summary_table _id)
    (λ _, true)
    (λ e, print (MsgDriverError e)).

Fixpoint for_each (review_table summary_table : string)
    (unique_ids : list pyval) : M unit :=
  match unique_ids with
  | [] => ret tt
  | _id :: rest =>
      iteration review_table summary_table _id;;;
      for_each review_table summary_table rest
  end.

Definition main (review_table summary_table : string) : M unit :=
  let! unique_ids := fetch_unique_values_from_db review_table "Id" in
  print (MsgUniqueIds unique_ids);;;
  for_each review_table summary_table unique_ids.

End Pipeline.

(** ** Notions the properties are stated with *)

(** The strings of a sequence of optional strings that [filter(None, ...)]
    keeps. *)
Definition kept (x : list (option string)) : list string :=
  x ≫= λ o, match o with
            | Some s => if Str.nonempty s then [s] else []
            | None => []
            end.

(** A fault that makes one of the given operations fail. *)
Definition hits (flt : fault) (ops : list store_op) : bool :=
  match flt with
  | NoFault => false
  | FailAt op _ => existsb (op_eqb op) ops
  end.

Definition read_ops : list store_op :=
  [OpConnect; OpCursor; OpExecute; OpFetchall].
Definition write_ops : list store_op :=
  [OpConnect; OpCursor; OpExecute; OpCommit].

(** The fault the next connection will meet. *)
Definition next_fault (w : world) : fault := faults w (sessions w).

(** The ids for which the driver has printed that it starts on them. *)
Fixpoint started (tr : list event) : list pyval :=
  match tr with
  | [] => []
  | Printed (MsgGenerating id) :: tr' => id :: started tr'
  | _ :: tr' => started tr'
  end.

(** The exceptions the driver has caught and printed, and the ids it has
    finished. *)
Fixpoint driver_errors (tr : list event) : list exn :=
  match tr with
  | [] => []
  | Printed (MsgDriverError e) :: tr' => e :: driver_errors tr'
  | _ :: tr' => driver_errors tr'
  end.

Fixpoint finished (tr : list event) : list pyval :=
  match tr with
  | [] => []
  | Printed (MsgFinished id) :: tr' => id :: finished tr'
  | _ :: tr' => finished tr'
  end.

(** Connections and cursors opened and not closed in a stretch of trace. *)
Fixpoint open_connections (tr : list event) : Z :=
  match tr with
  | [] => 0
  | Connected :: tr' => open_connections tr' + 1
  | ConnectionClosed :: tr' => open_connections tr' - 1
  | _ :: tr' => open_connections tr'
  end.

Fixpoint open_cursors (tr : list event) : Z :=
  match tr with
  | [] => 0
  | CursorOpened :: tr' => open_cursors tr' + 1
  | CursorClosed :: tr' => open_cursors tr' - 1
  | _ :: tr' => open_cursors tr'
  end.

(** The statements executed in a stretch of trace. *)
Fixpoint executed (tr : list event) : list query :=
  match tr with
  | [] => []
  | Executed q :: tr' => q :: executed tr'
  | _ :: tr' => executed tr'
  end.

Definition is_string (v : pyval) : bool :=
  match v with PyStr _ => true | _ => false end.

(** A table after [UPDATE ... SET review_summary = s WHERE id = id], with
    [rs] and [i] the positions of the two columns. *)
Definition with_summary (rs i : nat) (s : string) (id : pyval) (tb : table)
  : table :=
  {| columns := columns tb;
     rows := (λ row, if sql_eq (cell i row) id
                     then <[rs := PyStr s]> row else row) <$> rows tb |}.

(** Every table but the one [update_review_summary] writes to is as it
    was. *)
Definition other_tables_kept (w w' : world) : Prop :=
  ∀ t, t ≠ "bmp_academy_details" → db w' !! t = db w !! t.

(** What a call leaves as it was: the requests sent and what the store and
    the service will do. *)
Definition oracles_kept (w w' : world) : Prop :=
  requests w' = requests w ∧ llm w' = llm w ∧ faults w' = faults w.

Definition is_start (ev : event) : bool :=
  match ev with Printed (MsgGenerating _) => true | _ => false end.

(** A computation that only appends events, none of them the start of an
    iteration. *)
Definition silent {A} (m : M A) : Prop :=
  ∀ w f, ∃ evs,
    trace (m (w, f)).2.1 = trace w ++ evs ∧ Forall (λ ev, is_start ev = false) evs.

Section Included.

Context {token : Type}.
Variable encode : string → list token.

(** The reviews before the first one that does not fit. *)
Fixpoint included (reviews : list string) : list string :=
  match reviews with
  | [] => []
  | r :: rest => if decide (fits encode r) then r :: included rest else []
  end.

End Included.

(** ** Instances to run the model on *)

(** A tokenizer with one token per character. *)
Definition char_tokens (s : string) : list ascii := Str.chars s.

(** [s * n]. *)
Fixpoint repeat_string (s : string) (n : nat) : string :=
  match n with
  | O => ""
  | S n' => s +:+ repeat_string s n'
  end.

(** Exact decimal arithmetic for the numeric parameters: the mean of integer
    and decimal values to six places, and rounding half to even. *)
Definition scaled6 (v : pyval) : option Z :=
  match v with
  | PyInt n => Some (n * 10 ^ 6)
  | PyDec m e => Some (m * 10 ^ 6 / 10 ^ Z.of_nat e)
  | _ => None
  end.

Definition exact_mean (l : list pyval) : outcome pyval :=
  match mapM scaled6 l with
  | None => Raise (TypeError "unsupported operand type")
  | Some zs =>
      match zs with
      | [] => Ok PyNone
      | _ => Ok (PyDec (foldr Z.add 0 zs / Z.of_nat (length zs)) 6)
      end
  end.

Definition exact_round (v : pyval) (ndigits : Z) : outcome pyval :=
  match v with
  | PyInt n => Ok (PyInt n)
  | PyDec m e =>
      let unit := 10 ^ (Z.of_nat e - ndigits) in
      let q := m / unit in
      let r := m mod unit in
      let up := (unit <? 2 * r) || ((unit =? 2 * r) && Z.odd q) in
      Ok (PyDec (if up then q + 1 else q) (Z.to_nat ndigits))
  | _ => Raise (TypeError "type doesn't define __round__ method")
  end.

Definition exact_str (v : pyval) : string :=
  match v with
  | PyNone => "None"
  | PyInt n => pretty n
  | PyDec m e => pretty m +:+ "e-" +:+ pretty (Z.of_nat e)
  | PyStr s => s
  end.

Definition reviews_table : table :=
  {| columns := ["Id"; "Rating"; "Review"];
     rows := [ [PyInt 7; PyInt 5; PyStr "Great coaches!"];
               [PyInt 7; PyInt 4; PyStr "Great coaches!"];
               [PyInt 7; PyInt 5; PyStr ""];
               [PyInt 7; PyInt 3; PyNone];
               [PyInt 8; PyInt 4; PyStr " Friendly staff "] ] |}.

Definition academy_table : table :=
  {| columns := ["id"; "review_summary"];
     rows := [ [PyInt 7; PyNone]; [PyInt 8; PyNone]; [PyInt 9; PyNone] ] |}.

Definition sample_db : gmap string table :=
  <["reviews" := reviews_table]> (<["bmp_academy_details" := academy_table]> ∅).

(** A world over [sample_db] with the given faults and a completion service
    that always answers. *)
Definition sample_world (flt : nat → fault) : world :=
  {| db := sample_db; work := sample_db; result_set := [];
     faults := flt; sessions := 0;
     llm := λ _ _, Ok "A summary."; requests := 0; trace := [] |}.

(** The frame of an id with four ratings and two distinct reviews. *)
Definition sample_frame : dataframe :=
  [ (PyInt 5, PyStr "Great coaches!"); (PyInt 4, PyStr "Great coaches!");
    (PyInt 5, PyNone); (PyInt 3, PyStr " Friendly staff ") ].

(** [sample_world] with a completion service that always fails. *)
Definition sample_world_down : world :=
  {| db := sample_db; work := sample_db; result_set := [];
     faults := λ _, NoFault; sessions := 0;
     llm := λ _ _, Raise (OpenAIError "Connection error."); requests := 0;
     trace := [] |}.

Definition unreachable : nat → fault := λ _, FailAt OpConnect "Can't connect to server".
Definition healthy : nat → fault := λ _, NoFault.

Definition no_locals : frame := {| conn := Unbound; curr := Unbound |}.

(** * Properties *)

(** ** Strings *)

Lemma append_nil_l (s : string) : "" +:+ s = s.
Proof. reflexivity. Qed.

Lemma append_cons (c : ascii) (s t : string) :
  String c s +:+ t = String c (s +:+ t).
Proof. reflexivity. Qed.

Lemma append_assoc (s t u : string) : (s +:+ t) +:+ u = s +:+ (t +:+ u).
Proof.
  induction s as [|c s IH]; [reflexivity|].
  rewrite !append_cons. by rewrite IH.
Qed.

Lemma chars_of_chars (l : list ascii) : Str.chars (Str.of_chars l) = l.
Proof. apply list_ascii_of_string_of_list_ascii. Qed.

Lemma of_chars_chars (s : string) : Str.of_chars (Str.chars s) = s.
Proof. apply string_of_list_ascii_of_string. Qed.

Lemma drop_leading_split (p : ascii → bool) (l : list ascii) :
  ∃ k, l = k ++ Str.drop_leading p l ∧ Forall (λ c, p c = true) k.
Proof.
  induction l as [|c l [k [Hl Hk]]]; simpl.
  - by exists [].
  - destruct (p c) eqn:Hc.
    + exists (c :: k). split; [simpl; by f_equal | by constructor].
    + by exists [].
Qed.

Lemma drop_leading_head (p : ascii → bool) (l l' : list ascii) (c : ascii) :
  Str.drop_leading p l = c :: l' → p c = false.
Proof.
  induction l as [|a l IH]; simpl; [done|].
  destruct (p a) eqn:Ha; [done|]. intros [= <- _]. done.
Qed.

Lemma drop_leading_fixed (p : ascii → bool) (l : list ascii) :
  (∀ c l', l = c :: l' → p c = false) → Str.drop_leading p l = l.
Proof.
  destruct l as [|c l]; [done|]. intros H. simpl. by rewrite (H c l).
Qed.

(** [strip] leaves no whitespace at either end. *)
Lemma strip_trimmed (s : string) : Str.trimmed (Str.strip s).
Proof.
  unfold Str.trimmed, Str.strip, Str.rstrip_chars, Str.lstrip_chars.
  rewrite chars_of_chars.
  set (X := Str.drop_leading Str.isspace (Str.chars s)).
  destruct (drop_leading_split Str.isspace (reverse X)) as [k [HX _]].
  set (D := Str.drop_leading Str.isspace (reverse X)) in *.
  split; intros c l Hc.
  - apply (f_equal reverse) in HX. rewrite reverse_involutive, reverse_app in HX.
    rewrite Hc in HX. simpl in HX.
    eapply drop_leading_head. unfold X in HX. exact HX.
  - apply (f_equal reverse) in Hc. rewrite reverse_involutive, reverse_app in Hc.
    simpl in Hc. eapply drop_leading_head. exact Hc.
Qed.

(** On a string without whitespace at either end [strip] changes nothing. *)
Lemma strip_fixed (s : string) : Str.trimmed s → Str.strip s = s.
Proof.
  intros [Hl Hr]. unfold Str.strip, Str.rstrip_chars, Str.lstrip_chars.
  rewrite (drop_leading_fixed _ (Str.chars s)) by exact Hl.
  rewrite drop_leading_fixed.
  - by rewrite reverse_involutive, of_chars_chars.
  - intros c l' Hc. apply (Hr c (reverse l')).
    apply (f_equal reverse) in Hc. rewrite reverse_involutive in Hc.
    by rewrite Hc, reverse_cons.
Qed.

Lemma strip_idempotent (s : string) : Str.strip (Str.strip s) = Str.strip s.
Proof. apply strip_fixed, strip_trimmed. Qed.

Lemma strip_empty : Str.strip "" = "".
Proof. reflexivity. Qed.

(** ** [preprocess_reviews] on optional strings *)

Lemma elem_of_list_of_set (l : list string) (s : string) :
  s ∈ list_of_set l ↔ s ∈ l.
Proof. unfold list_of_set. by rewrite elem_of_elements, elem_of_list_to_set. Qed.

Lemma NoDup_list_of_set (l : list string) : NoDup (list_of_set l).
Proof. unfold list_of_set. apply NoDup_elements. Qed.

Lemma filter_truthy_optional (x : list (option string)) :
  filter (λ v, truthy v = true) (of_optional <$> x) = PyStr <$> kept x.
Proof.
  induction x as [|o x IH]; [done|].
  destruct o as [[|c s]|]; cbn; rewrite ?filter_cons; cbn.
  - rewrite decide_False by done. exact IH.
  - rewrite decide_True by done. f_equal. exact IH.
  - rewrite decide_False by done. exact IH.
Qed.

Lemma filter_truthy_twice (l : list pyval) :
  filter (λ v, truthy v = true) (filter (λ v, truthy v = true) l)
  = filter (λ v, truthy v = true) l.
Proof.
  induction l as [|v l IH]; [done|].
  rewrite filter_cons. case_decide as Hv; [|exact IH].
  rewrite filter_cons, decide_True by done. by rewrite IH.
Qed.

Lemma comprehension_strip (l : list string) :
  comprehension strip_value (PyStr <$> l) = Ok (Str.strip <$> l).
Proof. induction l as [|s l IH]; [done|]. cbn. by rewrite IH. Qed.

(** On optional strings [preprocess_reviews] never raises, and returns the
    set of the stripped entries that are neither absent nor empty. *)
Lemma preprocess_reviews_optional (x : list (option string)) :
  preprocess_reviews (of_optional <$> x)
  = Ok (list_of_set (Str.strip <$> kept x)).
Proof.
  unfold preprocess_reviews.
  by rewrite filter_truthy_twice, filter_truthy_optional, comprehension_strip.
Qed.

(** What does hold of the output: no duplicates, every entry stripped, every
    entry the stripped form of an input entry that was present and not
    empty. *)
Lemma preprocess_reviews_output (x : list (option string)) (out : list string) :
  preprocess_reviews (of_optional <$> x) = Ok out →
  NoDup out ∧
  Forall Str.trimmed out ∧
  ∀ s, s ∈ out ↔ ∃ r, s = Str.strip r ∧ Some r ∈ x ∧ r ≠ "".
Proof.
  rewrite preprocess_reviews_optional. intros [= <-].
  split; [apply NoDup_list_of_set|]. split.
  - apply Forall_forall. intros s Hs.
    apply elem_of_list_of_set, list_elem_of_fmap in Hs as [r [-> _]].
    apply strip_trimmed.
  - intros s. rewrite elem_of_list_of_set, list_elem_of_fmap.
    unfold kept. setoid_rewrite list_elem_of_bind.
    split.
    + intros [r [-> [o [Hr Ho]]]]. exists r. split; [done|].
      destruct o as [[|c r']|]; simpl in Hr; try by apply elem_of_nil in Hr.
      apply list_elem_of_singleton in Hr as ->. done.
    + intros [r [-> [Hr Hne]]]. exists r. split; [done|].
      exists (Some r). split; [|done].
      destruct r; [done|]. simpl. by apply list_elem_of_singleton.
Qed.

(** C2, at the input that breaks it: an entry of spaces only passes the
    emptiness filter, which runs before [strip], and comes out as the empty
    string. *)
Theorem preprocess_reviews_keeps_blank_entry :
  preprocess_reviews (of_optional <$> [Some "   "]) = Ok [""].
Proof. vm_compute. reflexivity. Qed.

(** A second pass removes exactly the empty string a first pass may have
    left. *)
Lemma preprocess_reviews_again (x : list (option string)) (once : list string) :
  preprocess_reviews (of_optional <$> x) = Ok once →
  ∃ twice, preprocess_reviews (PyStr <$> once) = Ok twice ∧
           ∀ s, s ∈ twice ↔ s ∈ once ∧ s ≠ "".
Proof.
  intros Hx. destruct (preprocess_reviews_output x once Hx) as (_ & Htrim & _).
  replace (PyStr <$> once) with (of_optional <$> (Some <$> once))
    by (by rewrite <- list_fmap_compose).
  eexists. split; [apply preprocess_reviews_optional|].
  pose proof (preprocess_reviews_optional (Some <$> once)) as H2.
  apply preprocess_reviews_output in H2 as (_ & _ & Hmem).
  intros s. rewrite Hmem. rewrite Forall_forall in Htrim. split.
  - intros (r & -> & Hr & Hne).
    apply list_elem_of_fmap in Hr as (r' & [= <-] & Hr').
    rewrite (strip_fixed r) by auto. done.
  - intros [Hs Hne]. exists s. rewrite (strip_fixed s) by auto.
    split; [done|]. split; [|done]. by apply list_elem_of_fmap_2.
Qed.

(** C3, at the input that breaks it: cleaning an entry of spaces gives the
    empty string, and cleaning that result gives nothing. *)
Theorem preprocess_reviews_twice_differs :
  preprocess_reviews (of_optional <$> [Some "   "]) = Ok [""] ∧
  preprocess_reviews (PyStr <$> [""]) = Ok [].
Proof. split; vm_compute; reflexivity. Qed.

(** ** The context of [generate_summary_openai] *)

Lemma append_nil_r (s : string) : s +:+ "" = s.
Proof. induction s as [|c s IH]; [done|]. by rewrite append_cons, IH. Qed.

Section Context_properties.

Context {token : Type}.
Variable encode : string → list token.

Lemma included_prefix (reviews : list string) :
  ∃ rest, reviews = included encode reviews ++ rest.
Proof.
  induction reviews as [|r reviews [rest IH]]; simpl.
  - by exists [].
  - case_decide.
    + exists rest. simpl. by f_equal.
    + by exists (r :: reviews).
Qed.

(** Every review in the context passed the test on its own. *)
Lemma included_fits (reviews : list string) :
  Forall (fits encode) (included encode reviews).
Proof.
  induction reviews as [|r reviews IH]; simpl; [constructor|].
  case_decide; by constructor.
Qed.

Lemma accumulate_lines (context : string) (reviews : list string) :
  accumulate encode context reviews
  = context +:+ lines (included encode reviews).
Proof.
  revert context. induction reviews as [|r reviews IH]; intros context; simpl.
  - by rewrite append_nil_r.
  - case_decide as Hfit; unfold fits in Hfit.
    + destruct (Z.gtb_spec (num_tokens_from_string encode r)
                           (max_token_count_for_context encode)); [lia|].
      rewrite IH. simpl. by rewrite !append_assoc.
    + destruct (Z.gtb_spec (num_tokens_from_string encode r)
                           (max_token_count_for_context encode)); [|lia].
      by rewrite append_nil_r.
Qed.

(** Two reviews that fit one by one are both in the context, whatever
    their sum. *)
Lemma two_fitting_reviews (r1 r2 : string) :
  fits encode r1 → fits encode r2 →
  build_context encode [r1; r2] = r1 +:+ newline +:+ r2 +:+ newline.
Proof.
  intros H1 H2. unfold build_context. rewrite accumulate_lines. simpl.
  rewrite !decide_True by done. simpl. by rewrite append_nil_r.
Qed.

(** C10: the context is the reviews of a prefix of the input, each followed
    by a newline, in input order. *)
Theorem context_is_prefix_of_reviews (reviews : list string) :
  ∃ prefix rest,
    reviews = prefix ++ rest ∧ build_context encode reviews = lines prefix.
Proof.
  destruct (included_prefix reviews) as [rest Hrest].
  exists (included encode reviews), rest. split; [exact Hrest|].
  unfold build_context. by rewrite accumulate_lines.
Qed.

End Context_properties.

(** C1, at an input that breaks it: with one token per character, two
    reviews of 8000 characters are each within the budget of 14148 tokens
    and both enter the context, which then has 16002 tokens. The loop
    compares each review with the whole budget, never with what is left
    of it. *)
Theorem context_exceeds_token_budget :
  let r1 := repeat_string "a" (80 * 100) in
  let r2 := repeat_string "b" (80 * 100) in
  max_token_count_for_context char_tokens = 14148 ∧
  build_context char_tokens [r1; r2] = r1 +:+ newline +:+ r2 +:+ newline ∧
  num_tokens_from_string char_tokens (build_context char_tokens [r1; r2])
  = 16002 ∧
  max_token_count_for_context char_tokens
  < num_tokens_from_string char_tokens (build_context char_tokens [r1; r2]).
Proof. vm_compute. repeat split; reflexivity. Qed.

(** ** The store functions *)

Ltac unfold_ops :=
  unfold fetch_unique_values_from_db, fetch_rating_and_review,
    update_review_summary, close_all, call, try_finally, try_except, bind, ret,
    lift, print, on_world, test_local, assign_conn, assign_curr,
    mariadb_connect, conn_cursor, curr_execute, curr_fetchall, conn_commit,
    curr_close, conn_close, create_completion, current_fault, next_fault in *.

(** Run a computation as far as the fault [H] of its connection decides. *)
Ltac exec H := unfold_ops; repeat (progress (cbn; rewrite ?H)).

Lemma first_cells (l : list pyval) : cell 0 <$> ((λ v, [v]) <$> l) = l.
Proof. induction l as [|v l IH]; [done|]. cbn. by rewrite IH. Qed.

Lemma to_dataframe_project (ra re : nat) (l : list (list pyval)) :
  to_dataframe ((λ row, [cell ra row; cell re row]) <$> l)
  = (λ row, (cell ra row, cell re row)) <$> l.
Proof. induction l as [|r l IH]; [done|]. cbn. f_equal. exact IH. Qed.

Lemma elem_of_trace_emit (ev ev' : event) (w : world) :
  ev ∈ trace (emit ev' w) ↔ ev ∈ trace w ∨ ev = ev'.
Proof. cbn. by rewrite elem_of_app, list_elem_of_singleton. Qed.

Lemma printed_now (m : message) (w : world) :
  Printed m ∈ trace (emit (Printed m) w).
Proof. apply elem_of_trace_emit. by right. Qed.

Lemma still_in_trace (ev ev' : event) (w : world) :
  ev ∈ trace w → ev ∈ trace (emit ev' w).
Proof. intros. apply elem_of_trace_emit. by left. Qed.

Lemma trace_set_work d rs w : trace (set_work d rs w) = trace w.
Proof. reflexivity. Qed.

Lemma trace_set_db d w : trace (set_db d w) = trace w.
Proof. reflexivity. Qed.

(** An event just emitted, or emitted earlier, is in the trace. *)
Ltac in_trace :=
  repeat first
    [ apply printed_now
    | apply elem_of_trace_emit; right; reflexivity
    | apply still_in_trace
    | rewrite trace_set_work
    | rewrite trace_set_db ].

(** C8: [fetch_unique_values_from_db] never raises. Either nothing fails and
    it returns the distinct values of the column, or the connection, the
    cursor, the statement (an unknown table or column) or the fetch fails,
    and it prints the error and returns the empty list. *)
Theorem fetch_unique_values_degrades_to_empty
    (table column_name : string) (w : world) (f : frame) :
  ∃ l w',
    fetch_unique_values_from_db table column_name (w, f) = (Ok l, (w', f)) ∧
    ( (∃ tb i,
         hits (next_fault w) read_ops = false ∧
         db w !! table = Some tb ∧ column_index tb column_name = Some i ∧
         NoDup l ∧ ∀ v, v ∈ l ↔ v ∈ column_values tb i)
    ∨ ((hits (next_fault w) read_ops = true ∨ db w !! table = None ∨
        ∃ tb, db w !! table = Some tb ∧ column_index tb column_name = None) ∧
       l = [] ∧ ∃ msg, Printed (MsgError (MariadbError msg)) ∈ trace w') ).
Proof.
  destruct (db w !! table) as [tb|] eqn:Ht;
    [destruct (column_index tb column_name) as [i|] eqn:Hc|];
    (destruct (faults w (sessions w)) as [|[] msg] eqn:Hf;
     [exec Hf; rewrite ?Ht; exec Hf; rewrite ?Hc; exec Hf ..]);
    rewrite ?first_cells;
    do 2 eexists; (split; [reflexivity|]).
  all: try (right; split; [eauto|]; split; [done|];
            eexists; by in_trace).
  all: left; exists tb, i; split_and!; try done;
    [apply NoDup_remove_dups | intros v; apply elem_of_remove_dups].
Qed.

(** X14: with a connection and a cursor, [fetch_rating_and_review] never raises:
    it returns the rows of the id, [None] if there are none, and [None] with
    the error printed if the statement or the fetch fails. *)
Lemma fetch_rating_and_review_connected
    (table : string) (id : pyval) (w : world) (f : frame) :
  hits (next_fault w) [OpConnect; OpCursor] = false →
  ∃ r w',
    fetch_rating_and_review table id (w, f) = (Ok r, (w', f)) ∧
    ( (∃ tb ra re i,
         hits (next_fault w) read_ops = false ∧ db w !! table = Some tb ∧
         column_index tb "Rating" = Some ra ∧
         column_index tb "Review" = Some re ∧
         column_index tb "Id" = Some i ∧
         let matching :=
           filter (λ row, sql_eq (cell i row) id = true) (rows tb) in
         r = match matching with
             | [] => None
             | _ => Some ((λ row, (cell ra row, cell re row)) <$> matching)
             end)
    ∨ (r = None ∧ ∃ msg, Printed (MsgError (MariadbError msg)) ∈ trace w') ).
Proof.
  intros Hconn.
  destruct (db w !! table) as [tb|] eqn:Ht;
    [destruct (column_index tb "Rating") as [ra|] eqn:Hra;
     destruct (column_index tb "Review") as [re|] eqn:Hre;
     destruct (column_index tb "Id") as [i|] eqn:Hi|];
    (destruct (faults w (sessions w)) as [|[] msg] eqn:Hf;
     unfold next_fault in Hconn; rewrite Hf in Hconn; try done);
    exec Hf; rewrite ?Ht; exec Hf; rewrite ?Hra, ?Hre, ?Hi; exec Hf.
  all: try (do 2 eexists; split; [reflexivity|]; right; split; [done|];
            eexists; by in_trace).
  all: destruct (filter _ (rows tb)) as [|row matching] eqn:Hm; exec Hf;
    rewrite ?to_dataframe_project;
    do 2 eexists; (split; [reflexivity|]);
    left; exists tb, ra, re, i; rewrite Hm; by repeat split.
Qed.

(** C5, where it breaks: when the connection (or the cursor) cannot be
    opened, [curr] has never been assigned, and [if curr:] in the [finally]
    block raises [UnboundLocalError] to the caller. *)
Theorem fetch_rating_and_review_raises_without_connection
    (table : string) (id : pyval) (w : world) (f : frame) :
  hits (next_fault w) [OpConnect; OpCursor] = true →
  ∃ w', fetch_rating_and_review table id (w, f)
        = (Raise (UnboundLocalError "curr"), (w', f)).
Proof.
  intros Hconn.
  destruct (faults w (sessions w)) as [|[] msg] eqn:Hf;
    unfold next_fault in Hconn; rewrite Hf in Hconn; try done;
    exec Hf; eauto.
Qed.

Lemma fetch_rating_and_review_raises_witness :
  hits (next_fault (sample_world unreachable)) [OpConnect; OpCursor] = true ∧
  ∃ w', fetch_rating_and_review "reviews" (PyInt 7)
          (sample_world unreachable, no_locals)
        = (Raise (UnboundLocalError "curr"), (w', no_locals)).
Proof.
  split; [reflexivity|].
  apply (fetch_rating_and_review_raises_without_connection
           "reviews" (PyInt 7) (sample_world unreachable) no_locals).
  reflexivity.
Defined.

(** The server's errors are all [mariadb.Error]. *)
Lemma run_query_error (d : gmap string table) (q : query) (e : exn) :
  run_query d q = Raise e → ∃ msg, e = MariadbError msg.
Proof.
  destruct q; cbn; intros H;
    repeat match type of H with
           | context [match ?x with _ => _ end] => destruct x
           end;
    inversion H; eauto.
Qed.

(** X15: with a connection and a cursor, [update_review_summary] never raises:
    either the statement and the commit succeed, and the committed tables
    are the updated ones, or one of them fails, the error is printed and
    the committed tables are as before. *)
Lemma update_review_summary_connected
    (summary_table : string) (id_to_update : pyval)
    (new_review_summary : string) (w : world) (f : frame) :
  hits (next_fault w) [OpConnect; OpCursor] = false →
  ∃ w',
    update_review_summary summary_table id_to_update new_review_summary (w, f)
    = (Ok tt, (w', f)) ∧
    ( (∃ rs d,
         hits (next_fault w) write_ops = false ∧
         run_query (db w)
           (UpdateReviewSummary "bmp_academy_details" new_review_summary
                                id_to_update) = Ok (rs, d) ∧
         db w' = d ∧ Committed ∈ trace w' ∧
         Printed MsgSummaryAdded ∈ trace w')
    ∨ (db w' = db w ∧
       ∃ msg, Printed (MsgError (MariadbError msg)) ∈ trace w') ).
Proof.
  intros Hconn.
  destruct (db w !! "bmp_academy_details") as [tb|] eqn:Ht;
    [destruct (column_index tb "review_summary") as [rs|] eqn:Hrs;
     destruct (column_index tb "id") as [i|] eqn:Hi|];
    (destruct (faults w (sessions w)) as [|[] msg] eqn:Hf;
     unfold next_fault in Hconn; rewrite Hf in Hconn; try done);
    exec Hf; rewrite ?Ht; exec Hf; rewrite ?Hrs, ?Hi; exec Hf;
    eexists; (split; [reflexivity|]).
  all: try (right; split; [reflexivity|]; eexists; by in_trace).
  all: left; do 2 eexists; split_and!; try done; by in_trace.
Qed.

(** C4, where it breaks: when the connection (or the cursor) cannot be
    opened, the error is printed, but [curr] has never been assigned, and
    [if curr:] in the [finally] block raises [UnboundLocalError] to the
    caller. [fetch_unique_values_from_db] assigns [None] to both locals
    first; this function does not. *)
Theorem update_review_summary_raises_without_connection
    (summary_table : string) (id_to_update : pyval)
    (new_review_summary : string) (w : world) (f : frame) :
  hits (next_fault w) [OpConnect; OpCursor] = true →
  ∃ w',
    update_review_summary summary_table id_to_update new_review_summary (w, f)
    = (Raise (UnboundLocalError "curr"), (w', f)) ∧
    db w' = db w.
Proof.
  intros Hconn.
  destruct (faults w (sessions w)) as [|[] msg] eqn:Hf;
    unfold next_fault in Hconn; rewrite Hf in Hconn; try done;
    exec Hf; eauto.
Qed.

Lemma update_review_summary_raises_witness :
  hits (next_fault (sample_world unreachable)) [OpConnect; OpCursor] = true ∧
  ∃ w',
    update_review_summary "summaries" (PyInt 7) "A summary."
      (sample_world unreachable, no_locals)
    = (Raise (UnboundLocalError "curr"), (w', no_locals)) ∧
    db w' = db (sample_world unreachable).
Proof.
  split; [reflexivity|].
  apply (update_review_summary_raises_without_connection
           "summaries" (PyInt 7) "A summary."
           (sample_world unreachable) no_locals).
  reflexivity.
Defined.

(** ** The driver *)

Lemma started_app (tr1 tr2 : list event) :
  started (tr1 ++ tr2) = started tr1 ++ started tr2.
Proof.
  induction tr1 as [|ev tr1 IH]; [done|].
  destruct ev as [[]| | | | | | |]; cbn; by rewrite ?IH.
Qed.

Lemma started_none (evs : list event) :
  Forall (λ ev, is_start ev = false) evs → started evs = [].
Proof.
  induction 1 as [|ev evs Hev _ IH]; [done|].
  destruct ev as [[]| | | | | | |]; cbn in *; done.
Qed.

Section Silence.

Context {A B : Type}.

Lemma silent_ret (a : A) : silent (ret a).
Proof. intros w f. exists []. by rewrite app_nil_r. Qed.

Lemma silent_lift (o : outcome A) : silent (lift o).
Proof. intros w f. exists []. by rewrite app_nil_r. Qed.

Lemma silent_bind (m : M A) (k : A → M B) :
  silent m → (∀ a, silent (k a)) → silent (bind m k).
Proof.
  intros Hm Hk w f. unfold bind.
  destruct (Hm w f) as (evs1 & H1 & F1).
  destruct (m (w, f)) as [[a|e] [w1 f1]]; cbn in *.
  - destruct (Hk a w1 f1) as (evs2 & H2 & F2).
    exists (evs1 ++ evs2). rewrite H2, H1, app_assoc.
    split; [done|]. by apply Forall_app.
  - by exists evs1.
Qed.

Lemma silent_try_except (body : M A) (catches : exn → bool)
    (handler : exn → M A) :
  silent body → (∀ e, silent (handler e)) →
  silent (try_except body catches handler).
Proof.
  intros Hb Hh w f. unfold try_except.
  destruct (Hb w f) as (evs1 & H1 & F1).
  destruct (body (w, f)) as [[a|e] [w1 f1]]; cbn in *.
  - by exists evs1.
  - destruct (catches e); [|by exists evs1].
    destruct (Hh e w1 f1) as (evs2 & H2 & F2).
    exists (evs1 ++ evs2). rewrite H2, H1, app_assoc.
    split; [done|]. by apply Forall_app.
Qed.

Lemma silent_try_finally (body : M A) (fin : M unit) :
  silent body → silent fin → silent (try_finally body fin).
Proof.
  intros Hb Hf w f. unfold try_finally.
  destruct (Hb w f) as (evs1 & H1 & F1).
  destruct (body (w, f)) as [r [w1 f1]]; cbn in *.
  destruct (Hf w1 f1) as (evs2 & H2 & F2).
  destruct (fin (w1, f1)) as [[[]|e] [w2 f2]]; cbn in *;
    exists (evs1 ++ evs2); rewrite H2, H1, app_assoc;
    (split; [done|]); by apply Forall_app.
Qed.

Lemma silent_call (locals : frame) (body : M A) :
  silent body → silent (call locals body).
Proof.
  intros Hb w f. unfold call.
  destruct (Hb w locals) as (evs & H & F).
  destruct (body (w, locals)) as [r [w1 f1]]; cbn in *. by exists evs.
Qed.

End Silence.

Lemma silent_emit (ev : event) (g : world → world) :
  is_start ev = false → (∀ w, trace (g w) = trace w) →
  silent (on_world (λ w, emit ev (g w))).
Proof.
  intros Hev Hg w f. exists [ev]. cbn. rewrite Hg. split; [done|].
  by constructor.
Qed.

(** A primitive that emits at most one event, and not the start of an
    iteration. *)
Ltac silent_primitive :=
  let w := fresh "w" in
  let f := fresh "f" in
  intros w f; cbv beta delta
    [print on_world test_local assign_conn assign_curr mariadb_connect
     conn_cursor curr_execute curr_fetchall conn_commit curr_close conn_close
     create_completion] iota zeta;
  repeat match goal with
         | |- context [match ?x with _ => _ end] => destruct x
         end;
  cbn;
  first [ exists []; rewrite app_nil_r; split; [reflexivity | constructor]
        | eexists [_]; split; [reflexivity | by repeat constructor] ].

Lemma silent_print (m : message) :
  is_start (Printed m) = false → silent (print m).
Proof.
  intros Hm w f. exists [Printed m]. split; [done|]. by constructor.
Qed.

Lemma silent_test_local name get : silent (test_local name get).
Proof. silent_primitive. Qed.
Lemma silent_assign_conn : silent assign_conn.
Proof. silent_primitive. Qed.
Lemma silent_assign_curr : silent assign_curr.
Proof. silent_primitive. Qed.
Lemma silent_mariadb_connect : silent mariadb_connect.
Proof. silent_primitive. Qed.
Lemma silent_conn_cursor : silent conn_cursor.
Proof. silent_primitive. Qed.
Lemma silent_curr_execute q : silent (curr_execute q).
Proof. silent_primitive. Qed.
Lemma silent_curr_fetchall : silent curr_fetchall.
Proof. silent_primitive. Qed.
Lemma silent_conn_commit : silent conn_commit.
Proof. silent_primitive. Qed.
Lemma silent_curr_close : silent curr_close.
Proof. silent_primitive. Qed.
Lemma silent_conn_close : silent conn_close.
Proof. silent_primitive. Qed.
Lemma silent_create_completion r : silent (create_completion r).
Proof. silent_primitive. Qed.

(** Decompose a computation into its primitives. *)
Ltac silence :=
  repeat first
    [ apply silent_call | apply silent_try_finally | apply silent_try_except
    | apply silent_bind | apply silent_ret | apply silent_lift
    | apply silent_print; reflexivity
    | apply silent_test_local | apply silent_assign_conn
    | apply silent_assign_curr | apply silent_mariadb_connect
    | apply silent_conn_cursor | apply silent_curr_execute
    | apply silent_curr_fetchall | apply silent_conn_commit
    | apply silent_curr_close | apply silent_conn_close
    | apply silent_create_completion
    | match goal with
      | |- silent (match ?x with _ => _ end) => destruct x
      | |- ∀ _, silent _ => intros ?
      end ].

Lemma silent_close_all : silent close_all.
Proof. unfold close_all. silence. Qed.

Lemma silent_fetch_unique_values_from_db table column_name :
  silent (fetch_unique_values_from_db table column_name).
Proof. unfold fetch_unique_values_from_db. silence. Qed.

Lemma silent_fetch_rating_and_review table id :
  silent (fetch_rating_and_review table id).
Proof. unfold fetch_rating_and_review. silence. Qed.

Lemma silent_update_review_summary summary_table id summary :
  silent (update_review_summary summary_table id summary).
Proof. unfold update_review_summary. silence. Qed.

Section Driver.

Context {token : Type}.
Variable encode : string → list token.
Variable series_mean : list pyval → outcome pyval.
Variable py_round : pyval → Z → outcome pyval.
Variable py_str : pyval → string.

Local Abbreviation the_suite :=
  (iteration_body encode series_mean py_round py_str).
Local Abbreviation the_iteration :=
  (iteration encode series_mean py_round py_str).
Local Abbreviation the_loop := (for_each encode series_mean py_round py_str).
Local Abbreviation the_main := (main encode series_mean py_round py_str).

(** What an iteration does after it has printed the id it starts on. *)
Lemma iteration_body_trace review_table summary_table _id w f :
  ∃ evs,
    trace (the_suite review_table summary_table _id (w, f)).2.1
    = trace w ++ Printed (MsgGenerating _id) :: evs ∧
    Forall (λ ev, is_start ev = false) evs.
Proof.
  unfold iteration_body. unfold bind at 1. cbn.
  match goal with
  | |- context [bind ?m ?k (?w1, f)] =>
      assert (silent (bind m k)) as Hs
  end.
  { unfold generate_summary_openai. silence. }
  destruct (Hs (emit (Printed (MsgGenerating _id)) w) f) as (evs & H & F).
  exists evs. rewrite H. cbn. by rewrite <- app_assoc.
Qed.

(** An iteration returns normally whatever its suite does: what the suite
    raises is caught and printed. *)
Lemma iteration_catches review_table summary_table _id s :
  ∃ s',
    the_iteration review_table summary_table _id s = (Ok tt, s') ∧
    match the_suite review_table summary_table _id s with
    | (Ok _, s1) => s' = s1
    | (Raise e, (w1, f1)) => s' = (emit (Printed (MsgDriverError e)) w1, f1)
    end.
Proof.
  unfold iteration, try_except.
  destruct (the_suite review_table summary_table _id s)
    as [[[]|e] [w1 f1]]; cbn; eauto.
Qed.

Lemma iteration_trace review_table summary_table _id w f :
  ∃ w' f' evs,
    the_iteration review_table summary_table _id (w, f) = (Ok tt, (w', f')) ∧
    trace w' = trace w ++ Printed (MsgGenerating _id) :: evs ∧
    Forall (λ ev, is_start ev = false) evs.
Proof.
  destruct (iteration_catches review_table summary_table _id (w, f))
    as ([w' f'] & Hrun & Hs').
  destruct (iteration_body_trace review_table summary_table _id w f)
    as (evs & Htr & F).
  destruct (the_suite review_table summary_table _id (w, f))
    as [[[]|e] [w1 f1]]; cbn in *; injection Hs' as -> ->.
  - by exists w1, f1, evs.
  - exists (emit (Printed (MsgDriverError e)) w1), f1,
           (evs ++ [Printed (MsgDriverError e)]).
    split; [done|]. cbn. rewrite Htr. split.
    + by rewrite <- app_assoc.
    + apply Forall_app. split; [done|]. by repeat constructor.
Qed.

(** C9: the loop returns normally and starts on every id, in order,
    whatever happens inside the iterations; and an iteration whose suite
    raises prints the exception and returns normally. *)
Theorem for_each_processes_every_id
    (review_table summary_table : string) (unique_ids : list pyval)
    (w : world) (f : frame) :
  (∃ w' f',
     the_loop review_table summary_table unique_ids (w, f)
     = (Ok tt, (w', f')) ∧
     started (trace w') = started (trace w) ++ unique_ids) ∧
  (∀ _id s, ∃ s',
     the_iteration review_table summary_table _id s = (Ok tt, s') ∧
     match the_suite review_table summary_table _id s with
     | (Ok _, s1) => s' = s1
     | (Raise e, (w1, f1)) => s' = (emit (Printed (MsgDriverError e)) w1, f1)
     end).
Proof.
  split; [|intros; apply iteration_catches].
  revert w f. induction unique_ids as [|_id ids IH]; intros w f.
  - exists w, f. cbn. by rewrite app_nil_r.
  - destruct (iteration_trace review_table summary_table _id w f)
      as (w1 & f1 & evs & Hrun & Htr & F).
    destruct (IH w1 f1) as (w' & f' & Hrest & Hst).
    exists w', f'. cbn. unfold bind. rewrite Hrun. split; [exact Hrest|].
    rewrite Hst, Htr, started_app. cbn.
    rewrite (started_none evs F). by rewrite <- app_assoc.
Qed.

End Driver.

(** ** The batch an iteration hands to the generator *)

Section Batch.

Variable series_mean : list pyval → outcome pyval.
Variable py_round : pyval → Z → outcome pyval.

Local Abbreviation the_batch := (review_batch series_mean py_round).

(** The batch of a frame, spelled out. *)
Lemma review_batch_some (d : dataframe) :
  the_batch (Some d)
  = and_then (series_mean (fst <$> d)) (λ mean,
    and_then (py_round mean 2) (λ average_rating,
    and_then (preprocess_reviews (snd <$> d)) (λ all_reviews,
    Ok (all_reviews, Z.of_nat (length d), average_rating)))).
Proof.
  unfold review_batch. cbn. by rewrite length_fmap.
Qed.

(** Without a frame there is no batch: the subscript raises. *)
Lemma review_batch_none :
  the_batch None
  = Raise (TypeError "'NoneType' object is not subscriptable").
Proof. reflexivity. Qed.

(** C7: [total_rating] is the number of fetched rows and [average_rating]
    the rounded mean of their ratings, both taken before the reviews are
    cleaned; frames with the same ratings give the same two numbers
    whatever their review texts are. *)
Theorem total_rating_counts_rows_before_cleaning
    (df : option dataframe) (all_reviews : list string)
    (total_rating : Z) (average_rating : pyval) :
  the_batch df = Ok (all_reviews, total_rating, average_rating) →
  ∃ d,
    df = Some d ∧
    total_rating = Z.of_nat (length d) ∧
    and_then (series_mean (fst <$> d)) (λ mean, py_round mean 2)
    = Ok average_rating ∧
    ∀ d' all_reviews' total_rating' average_rating',
      fst <$> d' = fst <$> d →
      the_batch (Some d')
      = Ok (all_reviews', total_rating', average_rating') →
      total_rating' = total_rating ∧ average_rating' = average_rating.
Proof.
  destruct df as [d|]; [|by rewrite review_batch_none].
  rewrite review_batch_some. intros H. exists d. split; [done|].
  destruct (series_mean (fst <$> d)) as [mean|] eqn:Hmean; [|done].
  cbn in H.
  destruct (py_round mean 2) as [avg|] eqn:Havg; [|done]. cbn in H.
  destruct (preprocess_reviews (snd <$> d)) as [revs|]; [|done].
  cbn in H. injection H as <- <- <-.
  split; [done|]. split; [exact Havg|].
  intros d' revs' total' avg' Hsame. rewrite review_batch_some, Hsame.
  rewrite Hmean. cbn. rewrite Havg. cbn.
  destruct (preprocess_reviews (snd <$> d')); [|done]. cbn.
  intros [= <- <- <-]. split; [|done].
  by rewrite <- (length_fmap fst d'), Hsame, length_fmap.
Qed.

End Batch.

(** The theorem at [sample_frame] in exact decimal arithmetic: four rows,
    two reviews after cleaning, [total_rating] 4 and [average_rating]
    4.25. *)
Lemma total_rating_counts_rows_witness :
  ∃ all_reviews,
    review_batch exact_mean exact_round (Some sample_frame)
    = Ok (all_reviews, 4, PyDec 425 2) ∧
    length all_reviews = 2%nat ∧
    ∃ d,
      Some sample_frame = Some d ∧
      4 = Z.of_nat (length d) ∧
      and_then (exact_mean (fst <$> d)) (λ mean, exact_round mean 2)
      = Ok (PyDec 425 2) ∧
      ∀ d' all_reviews' total_rating' average_rating',
        fst <$> d' = fst <$> d →
        review_batch exact_mean exact_round (Some d')
        = Ok (all_reviews', total_rating', average_rating') →
        total_rating' = 4 ∧ average_rating' = PyDec 425 2.
Proof.
  eexists. split; [vm_compute; reflexivity|]. split; [reflexivity|].
  eapply (total_rating_counts_rows_before_cleaning exact_mean exact_round
            (Some sample_frame) _ 4 (PyDec 425 2)).
  vm_compute. reflexivity.
Defined.

(** ** The model on the examples of the specification *)

Example sample_frame_reviews :
  ∃ all_reviews,
    preprocess_reviews (snd <$> sample_frame) = Ok all_reviews ∧
    ∀ s, s ∈ all_reviews ↔ s = "Great coaches!" ∨ s = "Friendly staff".
Proof.
  eexists. split; [vm_compute; reflexivity|].
  intros s. rewrite !elem_of_cons, elem_of_nil. tauto.
Qed.

(** In exact decimal arithmetic the two averages of the specification come
    out as 4.33 and 4.25. *)
Example exact_average_433 :
  and_then (exact_mean [PyInt 4; PyInt 5; PyInt 4]) (λ m, exact_round m 2)
  = Ok (PyDec 433 2).
Proof. reflexivity. Qed.

Example exact_average_425 :
  and_then (exact_mean [PyInt 5; PyInt 4; PyInt 5; PyInt 3])
           (λ m, exact_round m 2)
  = Ok (PyDec 425 2).
Proof. reflexivity. Qed.

(** An id without rows: the fetch returns [None], the subscript raises, the
    driver prints the exception and goes on to the next id. *)
Example ids_without_rows_do_not_stop_the_loop :
  let run := for_each char_tokens exact_mean exact_round exact_str
               "reviews" "summaries" [PyInt 9; PyInt 8]
               (sample_world healthy, no_locals) in
  run.1 = Ok tt ∧
  started (trace run.2.1) = [PyInt 9; PyInt 8] ∧
  driver_errors (trace run.2.1)
  = [TypeError "'NoneType' object is not subscriptable"] ∧
  finished (trace run.2.1) = [PyInt 8].
Proof. vm_compute. by split_and!. Qed.

(** The three store functions on [sample_db], with a healthy store and with
    an unreachable one. *)
Example distinct_ids_healthy :
  (fetch_unique_values_from_db "reviews" "Id"
     (sample_world healthy, no_locals)).1
  = Ok [PyInt 7; PyInt 8].
Proof. vm_compute. reflexivity. Qed.

Example distinct_ids_unreachable :
  let run := fetch_unique_values_from_db "reviews" "Id"
               (sample_world unreachable, no_locals) in
  run.1 = Ok [] ∧
  trace run.2.1
  = [Printed (MsgError (MariadbError "Can't connect to server"))].
Proof. vm_compute. by split. Qed.

Example unknown_column_gives_empty :
  (fetch_unique_values_from_db "reviews" "Identifier"
     (sample_world healthy, no_locals)).1
  = Ok [].
Proof. vm_compute. reflexivity. Qed.

Example rows_of_id_8 :
  (fetch_rating_and_review "reviews" (PyInt 8)
     (sample_world healthy, no_locals)).1
  = Ok (Some [(PyInt 4, PyStr " Friendly staff ")]).
Proof. vm_compute. reflexivity. Qed.

Example summary_is_committed :
  let run := update_review_summary "summaries" (PyInt 9) "A summary."
               (sample_world healthy, no_locals) in
  run.1 = Ok tt ∧
  rows <$> (db run.2.1 !! "bmp_academy_details")
  = Some [ [PyInt 7; PyNone]; [PyInt 8; PyNone];
           [PyInt 9; PyStr "A summary."] ].
Proof. vm_compute. by split. Qed.


(** * Further properties of the code *)

(** ** [preprocess_reviews] *)

(** X1: on optional strings [preprocess_reviews] returns normally, without
    duplicates, every entry stripped, and the entries are exactly the
    stripped forms of the input entries that are present and not empty. *)
Theorem preprocess_reviews_cleans (x : list (option string)) :
  ∃ out,
    preprocess_reviews (of_optional <$> x) = Ok out ∧
    NoDup out ∧
    Forall Str.trimmed out ∧
    ∀ s, s ∈ out ↔ ∃ r, s = Str.strip r ∧ Some r ∈ x ∧ r ≠ "".
Proof.
  eexists. split; [apply preprocess_reviews_optional|].
  apply preprocess_reviews_output, preprocess_reviews_optional.
Qed.

Lemma strip_value_error (v : pyval) (e : exn) :
  strip_value v = Raise e → ∃ msg, e = AttributeError msg.
Proof. destruct v; cbn; intros [= <-]; eauto. Qed.

Lemma comprehension_strip_raises (l : list pyval) (v : pyval) :
  v ∈ l → is_string v = false →
  ∃ msg, comprehension strip_value l = Raise (AttributeError msg).
Proof.
  intros Hv Hns. induction l as [|h l IH]; [by apply elem_of_nil in Hv|].
  cbn. destruct (strip_value h) as [s|e] eqn:Hh.
  - apply elem_of_cons in Hv as [->|Hv].
    + destruct h; cbn in *; done.
    + destruct (IH Hv) as [msg ->]. eauto.
  - apply strip_value_error in Hh as [msg ->]. eauto.
Qed.

(** X2: a value among the reviews that is truthy and not a string (a number
    from a numeric column) makes [preprocess_reviews] raise
    [AttributeError]: [filter(None, ...)] keeps it and [strip] does not
    exist on it. *)
Theorem preprocess_reviews_rejects_non_strings (l : list pyval) (v : pyval) :
  v ∈ l → truthy v = true → is_string v = false →
  ∃ msg, preprocess_reviews l = Raise (AttributeError msg).
Proof.
  intros Hv Ht Hns. unfold preprocess_reviews.
  destruct (comprehension_strip_raises
              (filter (λ review, truthy review = true)
                      (filter (λ v, truthy v = true) l)) v) as [msg ->];
    [|done|eauto].
  by rewrite !list_elem_of_filter.
Qed.

Lemma preprocess_reviews_rejects_witness :
  PyInt 5 ∈ [PyStr "Great coaches!"; PyInt 5] ∧
  ∃ msg, preprocess_reviews [PyStr "Great coaches!"; PyInt 5]
         = Raise (AttributeError msg).
Proof.
  assert (PyInt 5 ∈ [PyStr "Great coaches!"; PyInt 5]) as Hin
    by (right; left).
  split; [exact Hin|].
  apply (preprocess_reviews_rejects_non_strings _ (PyInt 5) Hin);
    reflexivity.
Defined.

(** X3: cleaning a cleaned list removes the empty string and nothing else; when
    the first pass left no empty string, the second pass returns the same
    reviews. *)
Theorem preprocess_reviews_second_pass (x : list (option string)) :
  ∃ once twice,
    preprocess_reviews (of_optional <$> x) = Ok once ∧
    preprocess_reviews (PyStr <$> once) = Ok twice ∧
    (∀ s, s ∈ twice ↔ s ∈ once ∧ s ≠ "") ∧
    ("" ∉ once → twice ≡ₚ once).
Proof.
  pose proof (preprocess_reviews_optional x) as H1.
  destruct (preprocess_reviews_again x _ H1) as (twice & H2 & Hmem).
  exists (list_of_set (Str.strip <$> kept x)), twice.
  split_and!; [done..|].
  intros Hne. apply NoDup_Permutation.
  - replace (PyStr <$> list_of_set (Str.strip <$> kept x))
      with (of_optional <$> (Some <$> list_of_set (Str.strip <$> kept x)))
      in H2 by (by rewrite <- list_fmap_compose).
    by apply preprocess_reviews_output in H2 as (? & _).
  - apply NoDup_list_of_set.
  - intros s. rewrite Hmem. split; [by intros [? _]|].
    intros Hs. split; [done|]. by intros ->.
Qed.

(** X4: the cleaned reviews depend only on which entries occur in the input,
    not on their order or on how often they occur. *)
Theorem preprocess_reviews_order_irrelevant
    (x y : list (option string)) (out out' : list string) :
  (∀ o, o ∈ x ↔ o ∈ y) →
  preprocess_reviews (of_optional <$> x) = Ok out →
  preprocess_reviews (of_optional <$> y) = Ok out' →
  out ≡ₚ out'.
Proof.
  intros Hxy Hx Hy.
  apply preprocess_reviews_output in Hx as (Nx & _ & Mx).
  apply preprocess_reviews_output in Hy as (Ny & _ & My).
  apply NoDup_Permutation; [done..|].
  intros s. rewrite Mx, My. by setoid_rewrite Hxy.
Qed.

Lemma preprocess_reviews_order_witness :
  ∃ out out',
    preprocess_reviews
      (of_optional <$> [Some "a"; None; Some " b"; Some "a"]) = Ok out ∧
    preprocess_reviews (of_optional <$> [None; Some " b"; Some "a"])
    = Ok out' ∧
    out ≡ₚ out'.
Proof.
  do 2 eexists.
  assert (∀ o : option string,
            o ∈ [Some "a"; None; Some " b"; Some "a"]
            ↔ o ∈ [None; Some " b"; Some "a"]) as Hsame.
  { intros o. rewrite !elem_of_cons, elem_of_nil. tauto. }
  split; [vm_compute; reflexivity|]. split; [vm_compute; reflexivity|].
  apply (preprocess_reviews_order_irrelevant _ _ _ _ Hsame);
    vm_compute; reflexivity.
Defined.

Lemma comprehension_length {A B} (f : A → outcome B) (l : list A)
    (out : list B) :
  comprehension f l = Ok out → length out = length l.
Proof.
  revert out. induction l as [|a l IH]; intros out; cbn.
  - by intros [= <-].
  - destruct (f a); [|done]. destruct (comprehension f l); [|done].
    intros [= <-]. cbn. by rewrite (IH _ eq_refl).
Qed.

Lemma list_of_set_length (l : list string) :
  (length (list_of_set l) ≤ length l)%nat.
Proof.
  apply submseteq_length, NoDup_submseteq; [apply NoDup_list_of_set|].
  intros s. by rewrite elem_of_list_of_set.
Qed.

(** Whatever the values are, [preprocess_reviews] returns no more entries
    than it was given. *)
Lemma preprocess_reviews_length (l : list pyval) (out : list string) :
  preprocess_reviews l = Ok out → (length out ≤ length l)%nat.
Proof.
  unfold preprocess_reviews.
  destruct (comprehension _ _) as [ys|] eqn:Hc; [|done]. intros [= <-].
  apply comprehension_length in Hc.
  etrans; [apply list_of_set_length|]. rewrite Hc.
  etrans; apply length_filter.
Qed.

(** X5: the generator is never handed more reviews than [total_rating] says
    there are ratings. *)
Theorem cleaned_reviews_at_most_total_rating
    (series_mean : list pyval → outcome pyval)
    (py_round : pyval → Z → outcome pyval)
    (df : option dataframe) (all_reviews : list string)
    (total_rating : Z) (average_rating : pyval) :
  review_batch series_mean py_round df
  = Ok (all_reviews, total_rating, average_rating) →
  Z.of_nat (length all_reviews) ≤ total_rating.
Proof.
  destruct df as [d|]; [|done]. rewrite review_batch_some.
  destruct (series_mean _) as [mean|]; [|done]. cbn.
  destruct (py_round mean 2) as [avg|]; [|done]. cbn.
  destruct (preprocess_reviews (snd <$> d)) as [revs|] eqn:Hp; [|done]. cbn.
  intros [= <- <- <-]. apply preprocess_reviews_length in Hp.
  rewrite length_fmap in Hp. lia.
Qed.

Lemma cleaned_reviews_at_most_total_witness :
  ∃ all_reviews,
    review_batch exact_mean exact_round (Some sample_frame)
    = Ok (all_reviews, 4, PyDec 425 2) ∧
    Z.of_nat (length all_reviews) ≤ 4.
Proof.
  eexists. split; [vm_compute; reflexivity|].
  eapply (cleaned_reviews_at_most_total_rating exact_mean exact_round
            (Some sample_frame) _ 4 (PyDec 425 2)).
  vm_compute. reflexivity.
Defined.

(** ** The context of [generate_summary_openai] *)

Lemma included_stops {token : Type} (encode : string → list token)
    (reviews : list string) :
  ∃ rest,
    reviews = included encode reviews ++ rest ∧
    ∀ r rest', rest = r :: rest' → ¬ fits encode r.
Proof.
  induction reviews as [|r reviews (rest & IH & Hstop)]; simpl.
  - exists []. by split.
  - case_decide as Hfit.
    + exists rest. split; [simpl; by f_equal | exact Hstop].
    + exists (r :: reviews). split; [done|]. by intros ? ? [= <- _].
Qed.

(** X6: the context holds the reviews up to the first one whose own token
    count exceeds the budget: every review in it fits on its own, the first
    one left out does not, and nothing after that one is taken, whether it
    fits or not. *)
Theorem context_stops_at_first_oversized_review {token : Type}
    (encode : string → list token) (reviews : list string) :
  ∃ prefix rest,
    reviews = prefix ++ rest ∧
    build_context encode reviews = lines prefix ∧
    Forall (fits encode) prefix ∧
    ∀ r rest', rest = r :: rest' → ¬ fits encode r.
Proof.
  destruct (included_stops encode reviews) as (rest & Hsplit & Hstop).
  exists (included encode reviews), rest. split_and!; [done| |apply included_fits|done].
  unfold build_context. by rewrite accumulate_lines.
Qed.

Lemma included_all {token : Type} (encode : string → list token)
    (reviews : list string) :
  Forall (fits encode) reviews → included encode reviews = reviews.
Proof.
  induction 1 as [|r reviews Hr _ IH]; simpl; [done|].
  rewrite decide_True by done. by rewrite IH.
Qed.

(** X7: when every review fits on its own, all of them are in the context,
    however many they are. *)
Theorem context_takes_all_fitting_reviews {token : Type}
    (encode : string → list token) (reviews : list string) :
  Forall (fits encode) reviews →
  build_context encode reviews = lines reviews.
Proof.
  intros Hall. unfold build_context.
  by rewrite accumulate_lines, included_all.
Qed.

Lemma context_takes_all_witness :
  Forall (fits char_tokens) ["Great coaches!"; "Friendly staff"] ∧
  build_context char_tokens ["Great coaches!"; "Friendly staff"]
  = lines ["Great coaches!"; "Friendly staff"].
Proof.
  assert (Forall (fits char_tokens) ["Great coaches!"; "Friendly staff"])
    as Hall by (repeat constructor; vm_compute; discriminate).
  split; [exact Hall|].
  apply (context_takes_all_fitting_reviews char_tokens _ Hall).
Defined.

(** ** The store functions: what they leave as it was *)

Lemma open_connections_app (tr1 tr2 : list event) :
  open_connections (tr1 ++ tr2) = open_connections tr1 + open_connections tr2.
Proof.
  induction tr1 as [|ev tr1 IH]; [done|]. destruct ev; cbn; lia.
Qed.

Lemma open_cursors_app (tr1 tr2 : list event) :
  open_cursors (tr1 ++ tr2) = open_cursors tr1 + open_cursors tr2.
Proof.
  induction tr1 as [|ev tr1 IH]; [done|]. destruct ev; cbn; lia.
Qed.

Lemma executed_app (tr1 tr2 : list event) :
  executed (tr1 ++ tr2) = executed tr1 ++ executed tr2.
Proof.
  induction tr1 as [|ev tr1 IH]; [done|]. destruct ev; cbn; by rewrite ?IH.
Qed.

(** Close a goal about the world a run ends in: the appended events are
    read off the trace. *)
Ltac frame_facts :=
  unfold oracles_kept, other_tables_kept; cbn; rewrite <- ?app_assoc;
  split_and!; try reflexivity; try done.

Lemma fetch_unique_values_frame (table column_name : string) (w : world)
    (f : frame) :
  ∃ l w' evs,
    fetch_unique_values_from_db table column_name (w, f) = (Ok l, (w', f)) ∧
    db w' = db w ∧ oracles_kept w w' ∧ sessions w' = S (sessions w) ∧
    trace w' = trace w ++ evs ∧
    open_connections evs = 0 ∧ open_cursors evs = 0.
Proof.
  destruct (db w !! table) as [tb|] eqn:Ht;
    [destruct (column_index tb column_name) as [i|] eqn:Hc|];
    (destruct (faults w (sessions w)) as [|[] msg] eqn:Hf;
     [exec Hf; rewrite ?Ht; exec Hf; rewrite ?Hc; exec Hf ..]);
    do 3 eexists; (split; [reflexivity|]); frame_facts.
Qed.

Lemma fetch_rating_and_review_frame (table : string) (id : pyval) (w : world)
    (f : frame) :
  ∃ r w' evs,
    fetch_rating_and_review table id (w, f) = (r, (w', f)) ∧
    db w' = db w ∧ oracles_kept w w' ∧ sessions w' = S (sessions w) ∧
    trace w' = trace w ++ evs ∧
    open_connections evs
    = (if hits (next_fault w) [OpCursor] then 1 else 0).
Proof.
  destruct (db w !! table) as [tb|] eqn:Ht;
    [destruct (column_index tb "Rating") as [ra|] eqn:Hra;
     destruct (column_index tb "Review") as [re|] eqn:Hre;
     destruct (column_index tb "Id") as [i|] eqn:Hi|];
    (destruct (faults w (sessions w)) as [|[] msg] eqn:Hf;
     [exec Hf; rewrite ?Ht; exec Hf; rewrite ?Hra, ?Hre, ?Hi; exec Hf ..]);
    try (destruct (filter _ (rows tb)) as [|row matching] eqn:Hm; exec Hf);
    do 3 eexists; (split; [reflexivity|]); frame_facts.
Qed.

Lemma update_review_summary_frame (summary_table : string)
    (id_to_update : pyval) (new_review_summary : string) (w : world)
    (f : frame) :
  ∃ r w' evs,
    update_review_summary summary_table id_to_update new_review_summary (w, f)
    = (r, (w', f)) ∧
    oracles_kept w w' ∧ sessions w' = S (sessions w) ∧
    other_tables_kept w w' ∧
    trace w' = trace w ++ evs ∧
    open_connections evs
    = (if hits (next_fault w) [OpCursor] then 1 else 0) ∧
    (raises r = true → db w' = db w).
Proof.
  destruct (db w !! "bmp_academy_details") as [tb|] eqn:Ht;
    [destruct (column_index tb "review_summary") as [rs|] eqn:Hrs;
     destruct (column_index tb "id") as [i|] eqn:Hi|];
    (destruct (faults w (sessions w)) as [|[] msg] eqn:Hf;
     [exec Hf; rewrite ?Ht; exec Hf; rewrite ?Hrs, ?Hi; exec Hf ..]);
    do 3 eexists; (split; [reflexivity|]); frame_facts;
    intros t Hne; cbn; by rewrite lookup_insert_ne.
Qed.

(** A statement and a commit that go through: the committed tables are the
    old ones with the summary set in the rows of the id. *)
Lemma update_review_summary_success (summary_table : string)
    (id_to_update : pyval) (new_review_summary : string) (w : world)
    (f : frame) (tb : table) (rs i : nat) :
  hits (next_fault w) write_ops = false →
  db w !! "bmp_academy_details" = Some tb →
  column_index tb "review_summary" = Some rs →
  column_index tb "id" = Some i →
  ∃ w' evs,
    update_review_summary summary_table id_to_update new_review_summary (w, f)
    = (Ok tt, (w', f)) ∧
    db w'
    = <["bmp_academy_details" :=
          with_summary rs i new_review_summary id_to_update tb]> (db w) ∧
    faults w' = faults w ∧ sessions w' = S (sessions w) ∧
    trace w' = trace w ++ evs ∧
    Committed ∈ evs ∧ Printed MsgSummaryAdded ∈ evs ∧
    requests w' = requests w.
Proof.
  intros Hok Ht Hrs Hi.
  destruct (faults w (sessions w)) as [|[] msg] eqn:Hf;
    unfold next_fault in Hok; rewrite Hf in Hok; try done;
    exec Hf; rewrite ?Ht; exec Hf; rewrite ?Hrs, ?Hi; exec Hf;
    do 2 eexists; (split; [reflexivity|]); frame_facts;
    cbn; rewrite !elem_of_cons; tauto.
Qed.

(** X8: the two reading functions never change a committed table, whatever
    fails and also when they raise. *)
Theorem reads_leave_the_tables_unchanged (table column_name : string)
    (id : pyval) (w : world) (f : frame) :
  db (fetch_unique_values_from_db table column_name (w, f)).2.1 = db w ∧
  db (fetch_rating_and_review table id (w, f)).2.1 = db w.
Proof.
  destruct (fetch_unique_values_frame table column_name w f)
    as (l & w1 & evs1 & -> & H1 & _).
  destruct (fetch_rating_and_review_frame table id w f)
    as (r & w2 & evs2 & -> & H2 & _).
  done.
Qed.

(** X9: [fetch_unique_values_from_db] closes every connection and every cursor
    it has opened, whatever fails. *)
Theorem fetch_unique_values_closes_what_it_opens
    (table column_name : string) (w : world) (f : frame) :
  ∃ evs,
    trace (fetch_unique_values_from_db table column_name (w, f)).2.1
    = trace w ++ evs ∧
    open_connections evs = 0 ∧ open_cursors evs = 0.
Proof.
  destruct (fetch_unique_values_frame table column_name w f)
    as (l & w1 & evs & -> & _ & _ & _ & Htr & Hc & Hk).
  by exists evs.
Qed.

(** X10: [fetch_rating_and_review] and [update_review_summary] close the
    connection they have opened except when [conn.cursor()] fails: then
    [if curr:] raises before [conn.close()] is reached and the connection
    stays open. *)
Theorem connection_stays_open_when_cursor_fails
    (table : string) (id : pyval) (summary : string) (w : world) (f : frame) :
  (∃ evs,
     trace (fetch_rating_and_review table id (w, f)).2.1 = trace w ++ evs ∧
     open_connections evs
     = if hits (next_fault w) [OpCursor] then 1 else 0) ∧
  (∃ evs,
     trace (update_review_summary table id summary (w, f)).2.1
     = trace w ++ evs ∧
     open_connections evs
     = if hits (next_fault w) [OpCursor] then 1 else 0).
Proof.
  destruct (fetch_rating_and_review_frame table id w f)
    as (r1 & w1 & evs1 & -> & _ & _ & _ & Htr1 & Hc1).
  destruct (update_review_summary_frame table id summary w f)
    as (r2 & w2 & evs2 & -> & _ & _ & _ & Htr2 & Hc2 & _).
  split; eauto.
Qed.

(** X11: [update_review_summary] writes to no table but [bmp_academy_details],
    whatever table name it is given, and when it raises it has written
    nothing at all. *)
Theorem update_writes_only_the_fixed_table (summary_table : string)
    (id_to_update : pyval) (new_review_summary : string) (w : world)
    (f : frame) :
  let run :=
    update_review_summary summary_table id_to_update new_review_summary
      (w, f) in
  (∀ t, t ≠ "bmp_academy_details" → db run.2.1 !! t = db w !! t) ∧
  (raises run.1 = true → db run.2.1 = db w).
Proof.
  cbn zeta.
  destruct (update_review_summary_frame summary_table id_to_update
              new_review_summary w f)
    as (r & w' & evs & -> & _ & _ & Hother & _ & _ & Hraise).
  by split.
Qed.

Lemma with_summary_no_match (rs i : nat) (s : string) (id : pyval)
    (tb : table) :
  Forall (λ row, sql_eq (cell i row) id = false) (rows tb) →
  with_summary rs i s id tb = tb.
Proof.
  destruct tb as [cols rws]. unfold with_summary. cbn. intros Hno.
  f_equal. induction Hno as [|row rws Hrow _ IH]; [done|].
  cbn. by rewrite Hrow, IH.
Qed.

Lemma with_summary_twice (rs i : nat) (s1 s2 : string) (id : pyval)
    (tb : table) :
  rs ≠ i →
  with_summary rs i s2 id (with_summary rs i s1 id tb)
  = with_summary rs i s2 id tb.
Proof.
  intros Hne. unfold with_summary. cbn. f_equal.
  rewrite <- list_fmap_compose. apply list_fmap_ext. intros k row _. cbn.
  destruct (sql_eq (cell i row) id) eqn:Hrow; [|by rewrite Hrow].
  unfold cell at 1. rewrite list_lookup_insert_ne by done.
  fold (cell i row). by rewrite Hrow, list_insert_insert_eq.
Qed.

Lemma column_index_injective (tb : table) (a b : string) (ia ib : nat) :
  column_index tb a = Some ia → column_index tb b = Some ib →
  a ≠ b → ia ≠ ib.
Proof.
  unfold column_index. intros Ha Hb Hab ->.
  apply fmap_Some in Ha as ([? x] & Ha & ->).
  apply fmap_Some in Hb as ([? y] & Hb & [= <-]).
  apply list_find_Some in Ha as (Hx & -> & _).
  apply list_find_Some in Hb as (Hy & -> & _).
  cbn in *. congruence.
Qed.

(** X12: an update for an id that no row of [bmp_academy_details] has changes
    no table; it is committed and reported as a success all the same. *)
Theorem update_without_matching_row_changes_nothing
    (summary_table : string) (id_to_update : pyval)
    (new_review_summary : string) (w : world) (f : frame)
    (tb : table) (rs i : nat) :
  hits (next_fault w) write_ops = false →
  db w !! "bmp_academy_details" = Some tb →
  column_index tb "review_summary" = Some rs →
  column_index tb "id" = Some i →
  Forall (λ row, sql_eq (cell i row) id_to_update = false) (rows tb) →
  ∃ w' evs,
    update_review_summary summary_table id_to_update new_review_summary (w, f)
    = (Ok tt, (w', f)) ∧
    db w' = db w ∧
    trace w' = trace w ++ evs ∧
    Committed ∈ evs ∧ Printed MsgSummaryAdded ∈ evs.
Proof.
  intros Hok Ht Hrs Hi Hno.
  destruct (update_review_summary_success summary_table id_to_update
              new_review_summary w f tb rs i Hok Ht Hrs Hi)
    as (w' & evs & Hrun & Hdb & _ & _ & Htr & Hc & Hp & _).
  exists w', evs. split_and!; try done.
  by rewrite Hdb, with_summary_no_match, insert_id.
Qed.

Lemma update_without_matching_row_witness :
  ∃ w' evs,
    update_review_summary "summaries" (PyInt 42) "A summary."
      (sample_world healthy, no_locals)
    = (Ok tt, (w', no_locals)) ∧
    db w' = db (sample_world healthy) ∧
    trace w' = trace (sample_world healthy) ++ evs ∧
    Committed ∈ evs ∧ Printed MsgSummaryAdded ∈ evs.
Proof.
  apply (update_without_matching_row_changes_nothing "summaries" (PyInt 42)
           "A summary." (sample_world healthy) no_locals academy_table 1 0).
  - reflexivity.
  - vm_compute. reflexivity.
  - reflexivity.
  - reflexivity.
  - repeat constructor.
Defined.

(** X13: two updates for the same id, one after the other: the committed tables
    are those of the second update alone; nothing of the first summary is
    left. *)
Theorem second_update_overwrites_first
    (summary_table : string) (id_to_update : pyval) (s1 s2 : string)
    (w : world) (f : frame) (tb : table) (rs i : nat) :
  hits (faults w (sessions w)) write_ops = false →
  hits (faults w (S (sessions w))) write_ops = false →
  db w !! "bmp_academy_details" = Some tb →
  column_index tb "review_summary" = Some rs →
  column_index tb "id" = Some i →
  ∃ w1 w2,
    update_review_summary summary_table id_to_update s1 (w, f)
    = (Ok tt, (w1, f)) ∧
    update_review_summary summary_table id_to_update s2 (w1, f)
    = (Ok tt, (w2, f)) ∧
    db w2
    = <["bmp_academy_details" := with_summary rs i s2 id_to_update tb]> (db w).
Proof.
  intros Hok1 Hok2 Ht Hrs Hi.
  destruct (update_review_summary_success summary_table id_to_update s1
              w f tb rs i Hok1 Ht Hrs Hi)
    as (w1 & evs1 & Hrun1 & Hdb1 & Hf1 & Hs1 & _).
  assert (hits (next_fault w1) write_ops = false) as Hok
    by (unfold next_fault; by rewrite Hf1, Hs1).
  assert (db w1 !! "bmp_academy_details"
          = Some (with_summary rs i s1 id_to_update tb)) as Ht1
    by (by rewrite Hdb1, lookup_insert_eq).
  destruct (update_review_summary_success summary_table id_to_update s2
              w1 f _ rs i Hok Ht1 Hrs Hi)
    as (w2 & evs2 & Hrun2 & Hdb2 & _).
  exists w1, w2. split_and!; [done..|].
  rewrite Hdb2, Hdb1, insert_insert_eq, with_summary_twice; [done|].
  by apply (column_index_injective tb "review_summary" "id").
Qed.

Lemma second_update_overwrites_witness :
  ∃ w1 w2,
    update_review_summary "summaries" (PyInt 7) "First." 
      (sample_world healthy, no_locals) = (Ok tt, (w1, no_locals)) ∧
    update_review_summary "summaries" (PyInt 7) "Second." (w1, no_locals)
    = (Ok tt, (w2, no_locals)) ∧
    db w2
    = <["bmp_academy_details" :=
          with_summary 1 0 "Second." (PyInt 7) academy_table]>
        (db (sample_world healthy)).
Proof.
  apply (second_update_overwrites_first "summaries" (PyInt 7) "First."
           "Second." (sample_world healthy) no_locals academy_table 1 0).
  - reflexivity.
  - reflexivity.
  - vm_compute. reflexivity.
  - reflexivity.
  - reflexivity.
Defined.

(** ** The driver: what an iteration and the loop leave as it was *)

Section Driver_frame.

Context {token : Type}.
Variable encode : string → list token.
Variable series_mean : list pyval → outcome pyval.
Variable py_round : pyval → Z → outcome pyval.
Variable py_str : pyval → string.

Local Abbreviation one_iteration :=
  (iteration encode series_mean py_round py_str).
Local Abbreviation whole_loop :=
  (for_each encode series_mean py_round py_str).
Local Abbreviation whole_main := (main encode series_mean py_round py_str).

Local Opaque update_review_summary.

Lemma iteration_frame (review_table summary_table : string) (_id : pyval)
    (w : world) (f : frame) :
  ∃ w',
    one_iteration review_table summary_table _id (w, f) = (Ok tt, (w', f)) ∧
    (requests w ≤ requests w' ≤ S (requests w))%nat ∧
    llm w' = llm w ∧ faults w' = faults w ∧
    other_tables_kept w w' ∧
    (requests w' = requests w → db w' = db w) ∧
    ((∀ r, raises (llm w (requests w) r) = true) →
     db w' = db w ∧ sessions w' = S (sessions w)).
Proof.
  unfold iteration, try_except, iteration_body, bind, print, on_world, lift.
  destruct (fetch_rating_and_review_frame review_table _id
              (emit (Printed (MsgGenerating _id)) w) f)
    as (r & w1 & evs1 & -> & Hdb1 & (Hrq1 & Hllm1 & Hflt1) & Hs1 & _).
  cbn in Hdb1, Hrq1, Hllm1, Hflt1, Hs1.
  assert (other_tables_kept w w1) as Hk1 by (intros t _; by rewrite Hdb1).
  destruct r as [df|e]; cbn;
    [destruct (review_batch series_mean py_round df)
       as [[[all_reviews total_rating] average_rating]|e]; cbn|].
  2,3: eexists; split; [reflexivity|]; cbn;
       rewrite Hrq1, Hllm1, Hflt1, Hdb1, Hs1; split_and!; try done; lia.
  unfold generate_summary_openai, create_completion.
  match goal with
  | |- context [llm w1 (requests w1) ?req] =>
      destruct (llm w1 (requests w1) req) as [summary|e] eqn:Hreq
  end; cbn.
  - match goal with
    | |- context [update_review_summary ?t ?i ?s (?w2, f)] =>
        destruct (update_review_summary_frame t i s w2 f)
          as (r3 & w3 & evs3 & -> & (Hrq3 & Hllm3 & Hflt3) & Hs3 & Hk3 & _)
    end.
    cbn in Hrq3, Hllm3, Hflt3, Hs3.
    assert (other_tables_kept w w3) as Hk.
    { intros t Hne. rewrite (Hk3 t Hne). cbn. by rewrite Hdb1. }
    rewrite Hllm1, Hrq1 in Hreq.
    destruct r3 as [[]|e]; cbn; (eexists; split; [reflexivity|]); cbn;
      rewrite Hrq3, Hllm3, Hflt3, Hrq1, Hllm1, Hflt1;
      (split_and!; try done; try lia;
       intros Hdown;
       match type of Hreq with
       | llm _ _ ?req = _ => specialize (Hdown req)
       end; by rewrite Hreq in Hdown).
  - eexists; split; [reflexivity|]; cbn.
    rewrite Hrq1, Hllm1, Hflt1, Hdb1, Hs1. split_and!; try done; lia.
Qed.

Local Transparent update_review_summary.

Lemma for_each_frame (review_table summary_table : string)
    (unique_ids : list pyval) (w : world) (f : frame) :
  ∃ w',
    whole_loop review_table summary_table unique_ids (w, f)
    = (Ok tt, (w', f)) ∧
    (requests w ≤ requests w' ≤ requests w + length unique_ids)%nat ∧
    llm w' = llm w ∧ faults w' = faults w ∧
    other_tables_kept w w'.
Proof.
  revert w. induction unique_ids as [|_id ids IH]; intros w.
  - exists w. cbn. split_and!; try done; lia.
  - destruct (iteration_frame review_table summary_table _id w f)
      as (w1 & Hrun & Hrq1 & Hllm1 & Hflt1 & Hk1 & _).
    destruct (IH w1) as (w' & Hloop & Hrq & Hllm & Hflt & Hk).
    exists w'. cbn. unfold bind. rewrite Hrun.
    split; [exact Hloop|]. split_and!; try congruence; [lia|lia|].
    intros t Hne. by rewrite (Hk t Hne), (Hk1 t Hne).
Qed.

Lemma main_frame (review_table summary_table : string) (w : world)
    (f : frame) :
  ∃ w',
    whole_main review_table summary_table (w, f) = (Ok tt, (w', f)) ∧
    other_tables_kept w w'.
Proof.
  unfold main, bind, print, on_world.
  destruct (fetch_unique_values_frame review_table "Id" w f)
    as (ids & w1 & evs & -> & Hdb1 & _).
  destruct (for_each_frame review_table summary_table ids
              (emit (Printed (MsgUniqueIds ids)) w1) f)
    as (w' & -> & _ & _ & _ & Hk).
  exists w'. split; [done|].
  intros t Hne. rewrite (Hk t Hne). cbn. by rewrite Hdb1.
Qed.

End Driver_frame.

Section Driver_properties.

Context {token : Type}.
Variable encode : string → list token.
Variable series_mean : list pyval → outcome pyval.
Variable py_round : pyval → Z → outcome pyval.
Variable py_str : pyval → string.

Local Abbreviation an_iteration :=
  (iteration encode series_mean py_round py_str).
Local Abbreviation the_for_loop :=
  (for_each encode series_mean py_round py_str).
Local Abbreviation run_main := (main encode series_mean py_round py_str).

(** X16: [main] returns normally whatever the store and the completion service
    do, and every table other than [bmp_academy_details] is afterwards as it
    was before. *)
Theorem main_returns_and_writes_only_summaries
    (review_table summary_table : string) (w : world) (f : frame) :
  ∃ w',
    run_main review_table summary_table (w, f) = (Ok tt, (w', f)) ∧
    ∀ t, t ≠ "bmp_academy_details" → db w' !! t = db w !! t.
Proof. apply main_frame. Qed.

(** X17: the loop sends at most one completion request per id. *)
Theorem at_most_one_request_per_id
    (review_table summary_table : string) (unique_ids : list pyval)
    (w : world) (f : frame) :
  let run := the_for_loop review_table summary_table unique_ids (w, f) in
  (requests w ≤ requests run.2.1 ≤ requests w + length unique_ids)%nat.
Proof.
  cbn zeta.
  destruct (for_each_frame encode series_mean py_round py_str
              review_table summary_table unique_ids w f)
    as (w' & -> & Hrq & _).
  exact Hrq.
Qed.

(** X18: an iteration that has sent no completion request has written nothing:
    a summary is only ever stored after the service was asked for one. *)
Theorem summary_written_only_after_a_request
    (review_table summary_table : string) (_id : pyval) (w : world)
    (f : frame) :
  let run := an_iteration review_table summary_table _id (w, f) in
  requests run.2.1 = requests w → db run.2.1 = db w.
Proof.
  cbn zeta.
  destruct (iteration_frame encode series_mean py_round py_str
              review_table summary_table _id w f)
    as (w' & -> & _ & _ & _ & _ & Hnone & _).
  exact Hnone.
Qed.

(** X19: when the completion service fails, the iteration still returns
    normally, no table is changed, and only the one connection of the fetch
    has been attempted: [update_review_summary] is not called. *)
Theorem no_summary_written_when_completion_fails
    (review_table summary_table : string) (_id : pyval) (w : world)
    (f : frame) :
  (∀ r, raises (llm w (requests w) r) = true) →
  let run := an_iteration review_table summary_table _id (w, f) in
  run.1 = Ok tt ∧ db run.2.1 = db w ∧ sessions run.2.1 = S (sessions w).
Proof.
  intros Hdown. cbn zeta.
  destruct (iteration_frame encode series_mean py_round py_str
              review_table summary_table _id w f)
    as (w' & -> & _ & _ & _ & _ & _ & Hno).
  destruct (Hno Hdown). by split_and!.
Qed.

(** X20: [SUMMARY_TABLE] has no effect: [main] does the same whatever summary
    table it is given. *)
Theorem summary_table_is_ignored
    (review_table summary_table summary_table' : string)
    (s : world * frame) :
  run_main review_table summary_table s
  = run_main review_table summary_table' s.
Proof.
  unfold main, bind.
  destruct (fetch_unique_values_from_db review_table "Id" s)
    as [[ids|e] s1]; [|done].
  destruct (print (MsgUniqueIds ids) s1) as [[[]|e] s2]; [|done].
  revert s2. induction ids as [|_id ids IH]; intros s2; [done|].
  cbn. unfold bind.
  change (an_iteration review_table summary_table' _id s2)
    with (an_iteration review_table summary_table _id s2).
  destruct (an_iteration review_table summary_table _id s2)
    as [[[]|e] s3]; [apply IH | done].
Qed.

End Driver_properties.

Lemma summary_written_only_after_a_request_witness :
  let run := iteration char_tokens exact_mean exact_round exact_str
               "reviews" "summaries" (PyInt 9)
               (sample_world healthy, no_locals) in
  requests run.2.1 = requests (sample_world healthy) ∧
  db run.2.1 = db (sample_world healthy).
Proof.
  assert (requests
            (iteration char_tokens exact_mean exact_round exact_str
               "reviews" "summaries" (PyInt 9)
               (sample_world healthy, no_locals)).2.1
          = requests (sample_world healthy)) as Hrq
    by (vm_compute; reflexivity).
  split; [exact Hrq|].
  exact (summary_written_only_after_a_request char_tokens exact_mean
           exact_round exact_str "reviews" "summaries" (PyInt 9)
           (sample_world healthy) no_locals Hrq).
Defined.

Lemma no_summary_written_witness :
  let run := iteration char_tokens exact_mean exact_round exact_str
               "reviews" "summaries" (PyInt 7)
               (sample_world_down, no_locals) in
  run.1 = Ok tt ∧ db run.2.1 = db sample_world_down ∧
  sessions run.2.1 = S (sessions sample_world_down).
Proof.
  apply (no_summary_written_when_completion_fails char_tokens exact_mean
           exact_round exact_str "reviews" "summaries" (PyInt 7)
           sample_world_down no_locals).
  intros r. reflexivity.
Defined.

Lemma filter_no_match (i : nat) (id : pyval) (l : list (list pyval)) :
  Forall (λ row, sql_eq (cell i row) id = false) l →
  filter (λ row, sql_eq (cell i row) id = true) l = [].
Proof.
  induction 1 as [|row l Hrow _ IH]; [done|].
  rewrite filter_cons, decide_False by (by rewrite Hrow). exact IH.
Qed.

(** The fetch when everything goes through and the id has rows. *)
Lemma fetch_rating_and_review_success (table_name : string) (id : pyval)
    (w : world) (f : frame) (tb : table) (ra re i : nat) :
  hits (next_fault w) read_ops = false →
  db w !! table_name = Some tb →
  column_index tb "Rating" = Some ra →
  column_index tb "Review" = Some re →
  column_index tb "Id" = Some i →
  filter (λ row, sql_eq (cell i row) id = true) (rows tb) ≠ [] →
  ∃ w',
    fetch_rating_and_review table_name id (w, f)
    = (Ok (Some ((λ row, (cell ra row, cell re row))
                   <$> filter (λ row, sql_eq (cell i row) id = true)
                              (rows tb))),
       (w', f)) ∧
    db w' = db w ∧ oracles_kept w w' ∧ sessions w' = S (sessions w).
Proof.
  intros Hok Ht Hra Hre Hi Hsome.
  destruct (filter _ (rows tb)) as [|row matching] eqn:Hm; [done|].
  destruct (faults w (sessions w)) as [|[] msg] eqn:Hf;
    unfold next_fault in Hok; rewrite Hf in Hok; try done;
    exec Hf; rewrite ?Ht; exec Hf; rewrite ?Hra, ?Hre, ?Hi; exec Hf;
    rewrite Hm; exec Hf; rewrite to_dataframe_project;
    eexists; (split; [reflexivity|]); frame_facts.
Qed.

Section Driver_runs.

Context {token : Type}.
Variable encode : string → list token.
Variable series_mean : list pyval → outcome pyval.
Variable py_round : pyval → Z → outcome pyval.
Variable py_str : pyval → string.

Local Abbreviation iteration_of :=
  (iteration encode series_mean py_round py_str).
Local Abbreviation main_of := (main encode series_mean py_round py_str).

(** X21: with an unreachable store [main] prints the error and an empty list of
    ids, and that is all: no completion is requested, no table changes, and
    it returns normally. *)
Theorem main_on_unreachable_store
    (review_table summary_table : string) (w : world) (f : frame)
    (msg : string) :
  next_fault w = FailAt OpConnect msg →
  ∃ w',
    main_of review_table summary_table (w, f) = (Ok tt, (w', f)) ∧
    trace w'
    = trace w ++ [Printed (MsgError (MariadbError msg));
                  Printed (MsgUniqueIds [])] ∧
    requests w' = requests w ∧ db w' = db w.
Proof.
  intros Hf. unfold next_fault in Hf. unfold main. exec Hf.
  eexists. split; [reflexivity|]. frame_facts.
Qed.

(** X22: an id without rows in the review table: the fetch returns [None], the
    subscript raises [TypeError], the driver prints it; no completion is
    requested and nothing is written. *)
Theorem iteration_without_rows
    (review_table summary_table : string) (_id : pyval) (w : world)
    (f : frame) (tb : table) (ra re i : nat) :
  hits (next_fault w) read_ops = false →
  db w !! review_table = Some tb →
  column_index tb "Rating" = Some ra →
  column_index tb "Review" = Some re →
  column_index tb "Id" = Some i →
  Forall (λ row, sql_eq (cell i row) _id = false) (rows tb) →
  ∃ w',
    iteration_of review_table summary_table _id (w, f) = (Ok tt, (w', f)) ∧
    requests w' = requests w ∧ db w' = db w ∧
    trace w'
    = trace w ++
      [ Printed (MsgGenerating _id); Connected; CursorOpened;
        Executed (SelectRatingReview review_table _id);
        CursorClosed; ConnectionClosed;
        Printed (MsgDriverError
                   (TypeError "'NoneType' object is not subscriptable")) ].
Proof.
  intros Hok Ht Hra Hre Hi Hno. apply filter_no_match in Hno.
  unfold iteration, iteration_body.
  destruct (faults w (sessions w)) as [|[] msg] eqn:Hf;
    unfold next_fault in Hok; rewrite Hf in Hok; try done;
    exec Hf; rewrite ?Ht; exec Hf; rewrite ?Hra, ?Hre, ?Hi; exec Hf;
    rewrite Hno; exec Hf;
    eexists; (split; [reflexivity|]); frame_facts.
Qed.

Local Opaque update_review_summary fetch_rating_and_review.

(** X23: an iteration in which everything goes through stores, in the rows of
    the id in [bmp_academy_details], exactly the text the completion
    service returned, and has sent one request. *)
Theorem iteration_stores_the_completion
    (review_table summary_table : string) (_id : pyval) (w : world)
    (f : frame) (tb : table) (ra re i : nat)
    (all_reviews : list string) (total_rating : Z) (average_rating : pyval)
    (summary : string) (dest : table) (rs j : nat) :
  hits (faults w (sessions w)) read_ops = false →
  hits (faults w (S (sessions w))) write_ops = false →
  db w !! review_table = Some tb →
  column_index tb "Rating" = Some ra →
  column_index tb "Review" = Some re →
  column_index tb "Id" = Some i →
  filter (λ row, sql_eq (cell i row) _id = true) (rows tb) ≠ [] →
  review_batch series_mean py_round
    (Some ((λ row, (cell ra row, cell re row))
             <$> filter (λ row, sql_eq (cell i row) _id = true) (rows tb)))
  = Ok (all_reviews, total_rating, average_rating) →
  (∀ r, llm w (requests w) r = Ok summary) →
  db w !! "bmp_academy_details" = Some dest →
  column_index dest "review_summary" = Some rs →
  column_index dest "id" = Some j →
  ∃ w',
    iteration_of review_table summary_table _id (w, f) = (Ok tt, (w', f)) ∧
    db w'
    = <["bmp_academy_details" := with_summary rs j summary _id dest]> (db w) ∧
    requests w' = S (requests w).
Proof.
  intros Hread Hwrite Ht Hra Hre Hi Hsome Hbatch Hllm Hd Hrs Hj.
  destruct (fetch_rating_and_review_success review_table _id
              (emit (Printed (MsgGenerating _id)) w) f tb ra re i)
    as (w1 & Hfetch & Hdb1 & (Hrq1 & Hllm1 & Hflt1) & Hs1); try done.
  cbn in Hdb1, Hrq1, Hllm1, Hflt1, Hs1.
  unfold iteration, try_except, iteration_body, bind, print, on_world, lift.
  rewrite Hfetch. cbn -[review_batch]. rewrite Hbatch. cbn.
  unfold generate_summary_openai, create_completion.
  rewrite Hllm1, Hrq1, Hllm. cbn.
  match goal with
  | |- context [update_review_summary ?t ?k ?s (?w2, f)] =>
      destruct (update_review_summary_success t k s w2 f dest rs j)
        as (w3 & evs3 & -> & Hdb3 & _ & _ & _ & _ & _ & Hrq3)
  end; cbn; try done.
  - unfold next_fault. cbn. by rewrite Hflt1, Hs1.
  - by rewrite Hdb1.
  - eexists. split; [reflexivity|]. cbn.
    rewrite Hdb3, Hrq3. cbn. by rewrite Hdb1, Hrq1.
Qed.

Local Transparent update_review_summary fetch_rating_and_review.

End Driver_runs.

Lemma main_on_unreachable_store_witness :
  ∃ w',
    main char_tokens exact_mean exact_round exact_str "reviews" "summaries"
      (sample_world unreachable, no_locals) = (Ok tt, (w', no_locals)) ∧
    trace w'
    = trace (sample_world unreachable)
      ++ [Printed (MsgError (MariadbError "Can't connect to server"));
          Printed (MsgUniqueIds [])] ∧
    requests w' = requests (sample_world unreachable) ∧
    db w' = db (sample_world unreachable).
Proof.
  apply (main_on_unreachable_store char_tokens exact_mean exact_round
           exact_str "reviews" "summaries" (sample_world unreachable)
           no_locals "Can't connect to server").
  reflexivity.
Defined.

Lemma iteration_without_rows_witness :
  ∃ w',
    iteration char_tokens exact_mean exact_round exact_str
      "reviews" "summaries" (PyInt 9) (sample_world healthy, no_locals)
    = (Ok tt, (w', no_locals)) ∧
    requests w' = requests (sample_world healthy) ∧
    db w' = db (sample_world healthy) ∧
    trace w'
    = trace (sample_world healthy) ++
      [ Printed (MsgGenerating (PyInt 9)); Connected; CursorOpened;
        Executed (SelectRatingReview "reviews" (PyInt 9));
        CursorClosed; ConnectionClosed;
        Printed (MsgDriverError
                   (TypeError "'NoneType' object is not subscriptable")) ].
Proof.
  apply (iteration_without_rows char_tokens exact_mean exact_round exact_str
           "reviews" "summaries" (PyInt 9) (sample_world healthy) no_locals
           reviews_table 1 2 0).
  - reflexivity.
  - vm_compute. reflexivity.
  - reflexivity.
  - reflexivity.
  - reflexivity.
  - repeat constructor.
Defined.

Lemma iteration_stores_the_completion_witness :
  ∃ w',
    iteration char_tokens exact_mean exact_round exact_str
      "reviews" "summaries" (PyInt 7) (sample_world healthy, no_locals)
    = (Ok tt, (w', no_locals)) ∧
    db w'
    = <["bmp_academy_details" :=
          with_summary 1 0 "A summary." (PyInt 7) academy_table]>
        (db (sample_world healthy)) ∧
    requests w' = S (requests (sample_world healthy)).
Proof.
  apply (iteration_stores_the_completion char_tokens exact_mean exact_round
           exact_str "reviews" "summaries" (PyInt 7) (sample_world healthy)
           no_locals reviews_table 1 2 0 ["Great coaches!"] 4 (PyDec 425 2)
           "A summary." academy_table 1 0).
  - reflexivity.
  - reflexivity.
  - vm_compute. reflexivity.
  - reflexivity.
  - reflexivity.
  - reflexivity.
  - vm_compute. discriminate.
  - vm_compute. reflexivity.
  - intros r. reflexivity.
  - vm_compute. reflexivity.
  - reflexivity.
  - reflexivity.
Defined.

Lemma fetch_rating_and_review_connected_witness :
  hits (next_fault (sample_world healthy)) [OpConnect; OpCursor] = false ∧
  ∃ r w',
    fetch_rating_and_review "reviews" (PyInt 8)
      (sample_world healthy, no_locals) = (Ok r, (w', no_locals)).
Proof.
  split; [reflexivity|].
  destruct (fetch_rating_and_review_connected "reviews" (PyInt 8)
              (sample_world healthy) no_locals eq_refl)
    as (r & w' & Hrun & _).
  by exists r, w'.
Defined.

Lemma update_review_summary_connected_witness :
  hits (next_fault (sample_world healthy)) [OpConnect; OpCursor] = false ∧
  ∃ w',
    update_review_summary "summaries" (PyInt 8) "A summary."
      (sample_world healthy, no_locals) = (Ok tt, (w', no_locals)).
Proof.
  split; [reflexivity|].
  destruct (update_review_summary_connected "summaries" (PyInt 8)
              "A summary." (sample_world healthy) no_locals eq_refl)
    as (w' & Hrun & _).
  by exists w'.
Defined.
